(** * CloudAuth admin panel: a shallow embedding of [webapp/main.py]

    The account, session and login-history logic of the panel, written as
    Rocq functions over an explicit database state, followed by the
    properties the specification states about it.

    Conventions.
    - A Python [str] is a Rocq [string] holding its UTF-8 bytes.
    - The MariaDB database is a record of tables, each table the list of
      its rows in insertion order.  Every statement succeeds unless the
      source itself can make it fail (a missing row, a duplicate key, an
      unparseable timestamp): connection failures, column widths and the
      server's SQL mode are outside the model.
    - A procedure that talks to the database is a computation in the monad
      [M]: it takes the database, returns it (possibly changed) and either
      returns a value, raises an [HTTPException], or fails with an
      exception no [except] clause of the source catches. *)

From Stdlib Require Import ZArith List String Ascii Bool Lia Arith.
From Stdlib Require Import Sorted Permutation.
Import ListNotations.
Local Open Scope string_scope.
Local Open Scope list_scope.
Local Open Scope Z_scope.

(* ================================================================== *)
(** ** Strings as Python uses them                                     *)
(* ================================================================== *)

Definition chars (s : string) : list ascii := list_ascii_of_string s.
Definition text (l : list ascii) : string := string_of_list_ascii l.

Definition byte_of (c : ascii) : Z := Z.of_N (N_of_ascii c).
Definition char_of (z : Z) : ascii := ascii_of_N (Z.to_N z).

Definition bytes_of (s : string) : list Z := map byte_of (chars s).

(** Truth value of a [str]: the empty string is false. *)
Definition truthy (s : string) : bool :=
  match s with EmptyString => false | String _ _ => true end.

(** The characters [str.isspace] accepts, as UTF-8 byte sequences:
    U+0009..U+000D, U+001C..U+0020, U+0085, U+00A0, U+1680,
    U+2000..U+200A, U+2028, U+2029, U+202F, U+205F and U+3000. *)
Definition whitespace : list (list Z) :=
  map (fun b => [b]) [9; 10; 11; 12; 13; 28; 29; 30; 31; 32]
  ++ [[194; 133]; [194; 160]; [225; 154; 128]]
  ++ map (fun b => [226; 128; b]) [128; 129; 130; 131; 132; 133; 134; 135; 136; 137; 138]
  ++ [[226; 128; 168]; [226; 128; 169]; [226; 128; 175]; [226; 129; 159]; [227; 128; 128]].

Fixpoint starts_with (p l : list Z) : bool :=
  match p, l with
  | [], _ => true
  | x :: p', y :: l' => (x =? y) && starts_with p' l'
  | _ :: _, [] => false
  end.

(** Length of the white-space character [l] begins with, if any. *)
Definition space_width (l : list Z) : option nat :=
  option_map (@List.length Z) (find (fun p => starts_with p l) whitespace).

Fixpoint lstrip_bytes (fuel : nat) (l : list Z) : list Z :=
  match fuel with
  | O => l
  | S fuel' =>
      match space_width l with
      | Some n => lstrip_bytes fuel' (skipn n l)
      | None => l
      end
  end.

(** White space at the end is found on the reversed bytes, against the
    reversed encodings. *)
Definition space_width_rev (l : list Z) : option nat :=
  option_map (@List.length Z)
    (find (fun p => starts_with (rev p) l) whitespace).

Fixpoint rstrip_rev (fuel : nat) (l : list Z) : list Z :=
  match fuel with
  | O => l
  | S fuel' =>
      match space_width_rev l with
      | Some n => rstrip_rev fuel' (skipn n l)
      | None => l
      end
  end.

(** [str.strip()] *)
Definition strip (s : string) : string :=
  let l := lstrip_bytes (String.length s) (bytes_of s) in
  text (map char_of (rev (rstrip_rev (List.length l) (rev l)))).

(** [str.replace(old, new)] for one-character [old] and [new]. *)
Fixpoint replace_char (old new : ascii) (s : string) : string :=
  match s with
  | EmptyString => EmptyString
  | String c s' =>
      String (if Ascii.eqb c old then new else c) (replace_char old new s')
  end.

Definition hex_digit (upper : bool) (d : Z) : ascii :=
  nth (Z.to_nat d)
      (chars (if upper then "0123456789ABCDEF" else "0123456789abcdef"))
      "0"%char.

Definition is_digit (c : ascii) : bool :=
  let b := byte_of c in (48 <=? b) && (b <=? 57).

Definition is_alpha (c : ascii) : bool :=
  let b := byte_of c in
  ((65 <=? b) && (b <=? 90)) || ((97 <=? b) && (b <=? 122)).

(** [urllib.parse.quote(s)] with its default [safe="/"]: letters, digits
    and [_.-~/] are kept, every other byte becomes [%XX]. *)
Definition quote_safe (c : ascii) : bool :=
  is_alpha c || is_digit c
  || existsb (Ascii.eqb c) (chars "_.-~/").

Fixpoint quote (s : string) : string :=
  match s with
  | EmptyString => EmptyString
  | String c s' =>
      if quote_safe c then String c (quote s')
      else String "%"%char
             (String (hex_digit true (byte_of c / 16))
                (String (hex_digit true (byte_of c mod 16)) (quote s')))
  end.

(** Decimal rendering of [n], zero-padded to [width] digits (more if the
    number needs them). *)
Fixpoint pad_digits (width : nat) (n : Z) : list ascii :=
  match width with
  | O => []
  | S w => pad_digits w (n / 10) ++ [char_of (48 + n mod 10)]
  end.

Fixpoint digits_needed (fuel : nat) (n : Z) : nat :=
  match fuel with
  | O => 1%nat
  | S f => if n <? 10 then 1%nat else S (digits_needed f (n / 10))
  end.

Definition zero_padded (width : nat) (n : Z) : string :=
  text (pad_digits (Nat.max width (digits_needed (Z.to_nat n) n)) n).

(* ================================================================== *)
(** ** SHA-256 ([hashlib.sha256], FIPS 180-4)                          *)
(* ================================================================== *)

Module Sha256.

Definition mask : Z := 4294967295.
Definition w32 (x : Z) : Z := Z.land x mask.
Definition add32 (x y : Z) : Z := w32 (x + y).
Definition rotr (n x : Z) : Z :=
  Z.lor (Z.shiftr x n) (w32 (Z.shiftl x (32 - n))).
Definition shr (n x : Z) : Z := Z.shiftr x n.
Definition xor3 (a b c : Z) : Z := Z.lxor (Z.lxor a b) c.

Definition Ch (x y z : Z) : Z :=
  Z.lxor (Z.land x y) (Z.land (Z.lxor x mask) z).
Definition Maj (x y z : Z) : Z :=
  xor3 (Z.land x y) (Z.land x z) (Z.land y z).
Definition Sigma0 (x : Z) : Z := xor3 (rotr 2 x) (rotr 13 x) (rotr 22 x).
Definition Sigma1 (x : Z) : Z := xor3 (rotr 6 x) (rotr 11 x) (rotr 25 x).
Definition sigma0 (x : Z) : Z := xor3 (rotr 7 x) (rotr 18 x) (shr 3 x).
Definition sigma1 (x : Z) : Z := xor3 (rotr 17 x) (rotr 19 x) (shr 10 x).

(** The standard defines its constants from the primes: the first 32
    bits of the fractional part of the cube root of each of the first 64
    primes, and of the square root of each of the first 8 for the initial
    hash value. *)
Definition is_prime (n : Z) : bool :=
  (2 <=? n)
  && forallb (fun d => negb (n mod Z.of_nat d =? 0))
             (seq 2 (Z.to_nat n - 2)).

Definition primes : list Z :=
  filter is_prime (map Z.of_nat (seq 2 310)).

(** The largest [r + x] with [x < 2 ^ bits] and [(r + x) ^ k <= n], one
    bit at a time. *)
Fixpoint iroot (k n : Z) (bits : nat) (r : Z) : Z :=
  match bits with
  | O => r
  | S b =>
      let r' := r + 2 ^ Z.of_nat b in
      iroot k n b (if r' ^ k <=? n then r' else r)
  end.

Definition root_fraction (k p : Z) : Z :=
  w32 (iroot k (p * 2 ^ (32 * k)) 40 0).

Definition K : list Z := map (root_fraction 3) (firstn 64 primes).

Definition H0 : list Z := map (root_fraction 2) (firstn 8 primes).

(** Big-endian bytes of [x], [n] of them. *)
Fixpoint be_bytes (n : nat) (x : Z) : list Z :=
  match n with
  | O => []
  | S n' => be_bytes n' (x / 256) ++ [x mod 256]
  end.

Definition be_word (bs : list Z) : Z :=
  fold_left (fun acc b => acc * 256 + b) bs 0.

(** The message, a [1] bit, zeros up to 56 modulo 64 bytes, then the bit
    length on eight bytes. *)
Definition pad (msg : list Z) : list Z :=
  let len := Z.of_nat (List.length msg) in
  msg ++ [128] ++ repeat 0 (Z.to_nat ((55 - len) mod 64))
      ++ be_bytes 8 (8 * len).

Fixpoint chunks (fuel size : nat) {A} (l : list A) : list (list A) :=
  match fuel with
  | O => []
  | S fuel' =>
      match l with
      | [] => []
      | _ => firstn size l :: chunks fuel' size (skipn size l)
      end
  end.

Definition words (block : list Z) : list Z :=
  map be_word (chunks 16 4 block).

(** Message schedule: sixteen words of the block, then forty-eight
    derived ones. *)
Fixpoint schedule (n : nat) (w : list Z) : list Z :=
  match n with
  | O => w
  | S n' =>
      let t := List.length w in
      let at_ (k : nat) := nth (t - k) w 0 in
      schedule n'
        (w ++ [add32 (add32 (sigma1 (at_ 2%nat)) (at_ 7%nat))
                     (add32 (sigma0 (at_ 15%nat)) (at_ 16%nat))])
  end.

Record regs := mkRegs { ra : Z; rb : Z; rc : Z; rd : Z;
                        re : Z; rf : Z; rg : Z; rh : Z }.

Definition round (r : regs) (kw : Z * Z) : regs :=
  let t1 := add32 (add32 (add32 (rh r) (Sigma1 (re r)))
                         (add32 (Ch (re r) (rf r) (rg r)) (fst kw)))
                  (snd kw) in
  let t2 := add32 (Sigma0 (ra r)) (Maj (ra r) (rb r) (rc r)) in
  mkRegs (add32 t1 t2) (ra r) (rb r) (rc r)
         (add32 (rd r) t1) (re r) (rf r) (rg r).

Definition regs_of (h : list Z) : regs :=
  mkRegs (nth 0 h 0) (nth 1 h 0) (nth 2 h 0) (nth 3 h 0)
         (nth 4 h 0) (nth 5 h 0) (nth 6 h 0) (nth 7 h 0).

Definition list_of (r : regs) : list Z :=
  [ra r; rb r; rc r; rd r; re r; rf r; rg r; rh r].

Definition compress (h : list Z) (block : list Z) : list Z :=
  let w := schedule 48 (words block) in
  let r := fold_left round (combine K w) (regs_of h) in
  map (fun p => add32 (fst p) (snd p)) (combine h (list_of r)).

Definition digest (msg : list Z) : list Z :=
  let padded := pad msg in
  fold_left compress (chunks (List.length padded) 64 padded) H0.

Definition hex_of_word (w : Z) : list ascii :=
  flat_map (fun b => [hex_digit false (b / 16); hex_digit false (b mod 16)])
           (be_bytes 4 w).

Definition hexdigest (msg : list Z) : string :=
  text (flat_map hex_of_word (digest msg)).

End Sha256.

(** [hash_password]: the SHA-256 hex digest of the UTF-8 password. *)
Definition hash_password (password : string) : string :=
  Sha256.hexdigest (bytes_of password).
Arguments hash_password : simpl never.

(* ================================================================== *)
(** ** Timestamps ([datetime.fromisoformat], [strftime])               *)
(* ================================================================== *)

Record datetime := mkDatetime
  { year : Z; month : Z; day : Z;
    hour : Z; minute : Z; second : Z; microsecond : Z }.

Fixpoint read_digits (n : nat) (acc : Z) (l : list ascii)
  : option (Z * list ascii) :=
  match n with
  | O => Some (acc, l)
  | S n' =>
      match l with
      | c :: l' =>
          if is_digit c then read_digits n' (acc * 10 + (byte_of c - 48)) l'
          else None
      | [] => None
      end
  end.

Definition is_leap (y : Z) : bool :=
  (y mod 4 =? 0) && (negb (y mod 100 =? 0) || (y mod 400 =? 0)).

Definition days_in_month (y m : Z) : Z :=
  if m =? 2 then (if is_leap y then 29 else 28)
  else if (m =? 4) || (m =? 6) || (m =? 9) || (m =? 11) then 30
  else 31.

(** The range checks of the [datetime] constructor. *)
Definition valid_datetime (d : datetime) : bool :=
  (1 <=? year d) && (year d <=? 9999)
  && (1 <=? month d) && (month d <=? 12)
  && (1 <=? day d) && (day d <=? days_in_month (year d) (month d))
  && (0 <=? hour d) && (hour d <=? 23)
  && (0 <=? minute d) && (minute d <=? 59)
  && (0 <=? second d) && (second d <=? 59)
  && (0 <=? microsecond d) && (microsecond d <=? 999999).

(** [HH[:MM[:SS[.fff[fff]]]]], the whole of [l]. *)
Definition parse_hh_mm_ss_ff (l : list ascii) : option (Z * Z * Z * Z) :=
  match read_digits 2 0 l with
  | None => None
  | Some (h, []) => Some (h, 0, 0, 0)
  | Some (h, c1 :: l1) =>
      if negb (Ascii.eqb c1 ":") then None else
      match read_digits 2 0 l1 with
      | None => None
      | Some (m, []) => Some (h, m, 0, 0)
      | Some (m, c2 :: l2) =>
          if negb (Ascii.eqb c2 ":") then None else
          match read_digits 2 0 l2 with
          | None => None
          | Some (s, []) => Some (h, m, s, 0)
          | Some (s, c3 :: l3) =>
              if negb (Ascii.eqb c3 ".") then None else
              match List.length l3, read_digits (List.length l3) 0 l3 with
              | 3%nat, Some (f, _) => Some (h, m, s, f * 1000)
              | 6%nat, Some (f, _) => Some (h, m, s, f)
              | _, _ => None
              end
          end
      end
  end.

(** Splits a time string at its first [+] or [-]: the time, and the
    offset after the sign when there is one. *)
Fixpoint split_offset (l : list ascii) : list ascii * option (list ascii) :=
  match l with
  | [] => ([], None)
  | c :: l' =>
      if Ascii.eqb c "+" || Ascii.eqb c "-" then ([], Some l')
      else let (t, o) := split_offset l' in (c :: t, o)
  end.

(** [HH[:MM[:SS[.fff[fff]]]][+HH:MM[:SS[.ffffff]]]]; the offset has to be
    well formed and shorter than a day, and is then dropped ([strftime]
    below prints no zone). *)
Definition parse_isoformat_time (l : list ascii) : option (Z * Z * Z * Z) :=
  let (t, o) := split_offset l in
  match parse_hh_mm_ss_ff t, o with
  | None, _ => None
  | Some r, None => Some r
  | Some r, Some z =>
      let n := List.length z in
      if negb ((n =? 5) || (n =? 8) || (n =? 15))%nat then None else
      match parse_hh_mm_ss_ff z with
      | Some (zh, zm, zs, _) =>
          if (zm <=? 59) && (zs <=? 59) && (zh * 3600 + zm * 60 + zs <? 86400)
          then Some r else None
      | None => None
      end
  end.

(** Drops one character: a byte and, for a multi-byte UTF-8 character,
    its continuation bytes. *)
Definition drop_char (l : list ascii) : list ascii :=
  match l with
  | [] => []
  | c :: _ =>
      let b := byte_of c in
      let width := if b <? 128 then 1 else if b <? 224 then 2
                   else if b <? 240 then 3 else 4 in
      skipn (Z.to_nat width) l
  end.

(** [datetime.fromisoformat], for the grammar the library documents:
    [YYYY-MM-DD[*HH[:MM[:SS[.fff[fff]]]][+HH:MM[:SS[.ffffff]]]]], where [*]
    is any one character.  [None] stands for [ValueError].  Later releases
    of the library read further ISO 8601 spellings; this model refuses
    them. *)
Definition fromisoformat (s : string) : option datetime :=
  match read_digits 4 0 (chars s) with
  | Some (y, c1 :: l1) =>
      if negb (Ascii.eqb c1 "-") then None else
      match read_digits 2 0 l1 with
      | Some (mo, c2 :: l2) =>
          if negb (Ascii.eqb c2 "-") then None else
          match read_digits 2 0 l2 with
          | Some (d, rest) =>
              let time :=
                match rest with
                | [] => Some (0, 0, 0, 0)
                | _ => parse_isoformat_time (drop_char rest)
                end in
              match time with
              | Some (h, mi, sec, us) =>
                  let dt := mkDatetime y mo d h mi sec us in
                  if valid_datetime dt then Some dt else None
              | None => None
              end
          | None => None
          end
      | _ => None
      end
  | _ => None
  end.

(** [strftime("%Y-%m-%d %H:%M:%S")] *)
Definition strftime (d : datetime) : string :=
  (zero_padded 4 (year d) ++ "-" ++ zero_padded 2 (month d) ++ "-"
   ++ zero_padded 2 (day d) ++ " " ++ zero_padded 2 (hour d) ++ ":"
   ++ zero_padded 2 (minute d) ++ ":" ++ zero_padded 2 (second d))%string.

(* ================================================================== *)
(** ** The database                                                    *)
(* ================================================================== *)

(** A row of [users]. *)
Record User := mkUser
  { u_id : Z;
    u_username : string;
    u_password_hash : string;
    u_is_admin : bool;
    u_created_at : string }.

(** A row of [login_events]. *)
Record LoginEvent := mkLoginEvent
  { e_id : Z;
    e_username : string;
    e_logged_in_at : string }.

(** The state of the database server: the two tables and the server's
    clock, which [CURRENT_TIMESTAMP] reads.  [login_events] is [None]
    until the table has been created.

    Modelled from the spec: the declaration of the [users] table is not
    part of the source; the specification gives it as
    [users(id, username UNIQUE, password_hash, is_admin, created_at)] with
    [id] a key the store assigns, [username] compared exactly, and
    [created_at] set at insertion. *)
Record Db := mkDb
  { users : list User;
    login_events : option (list LoginEvent);
    current_timestamp : string }.

Definition set_users (db : Db) (us : list User) : Db :=
  mkDb us (login_events db) (current_timestamp db).

Definition set_login_events (db : Db) (es : list LoginEvent) : Db :=
  mkDb (users db) (Some es) (current_timestamp db).

(** The rows of [login_events]; none while the table is missing. *)
Definition events (db : Db) : list LoginEvent :=
  match login_events db with
  | Some es => es
  | None => []
  end.

(** [AUTO_INCREMENT]: an id above every id in the table.  Only freshness
    is modelled, not the engine's counter. *)
Definition next_id (ids : list Z) : Z :=
  fold_right Z.max 0 ids + 1.

(** [UPDATE ... SET ... WHERE ...]: every row the condition selects is
    replaced. *)
Definition update_where {A} (cond : A -> bool) (set : A -> A) (rows : list A)
  : list A :=
  map (fun r => if cond r then set r else r) rows.

(** [DELETE FROM ... WHERE ...] *)
Definition delete_where {A} (cond : A -> bool) (rows : list A) : list A :=
  filter (fun r => negb (cond r)) rows.

(** [ORDER BY key DESC]: rows with equal keys stay in table order (the
    server promises no order among them). *)
Fixpoint insert_desc {A} (leb : A -> A -> bool) (x : A) (l : list A) : list A :=
  match l with
  | [] => [x]
  | y :: l' => if leb x y && negb (leb y x) then y :: insert_desc leb x l'
               else x :: l
  end.

Definition order_by_desc {A} (leb : A -> A -> bool) (l : list A) : list A :=
  fold_right (insert_desc leb) [] l.

(* ================================================================== *)
(** ** Procedures: database state and exceptions                       *)
(* ================================================================== *)

Record HTTPException := mkHTTPException
  { status_code : Z;
    detail : string }.

(** The exceptions the source raises without meaning to.  Neither is an
    [HTTPException] or a [mysql.connector.errors.Error], so none of the
    source's [except] clauses catches them and the framework answers the
    request with status 500. *)
Inductive Error : Type :=
| ValueError
| UnicodeEncodeError.

Inductive Outcome (A : Type) : Type :=
| Returned (a : A)
| Raised (e : HTTPException)
| Failed (e : Error).
Arguments Returned {A} a.
Arguments Raised {A} e.
Arguments Failed {A} e.

Definition M (A : Type) : Type := Db -> Outcome A * Db.

Definition ret {A} (a : A) : M A := fun db => (Returned a, db).

Definition raise {A} (e : HTTPException) : M A := fun db => (Raised e, db).

Definition fail {A} (e : Error) : M A := fun db => (Failed e, db).

Definition bind {A B} (m : M A) (k : A -> M B) : M B :=
  fun db =>
    match m db with
    | (Returned a, db') => k a db'
    | (Raised e, db') => (Raised e, db')
    | (Failed e, db') => (Failed e, db')
    end.

(** [try: m except HTTPException as exc: handler exc] *)
Definition try_except {A} (m : M A) (handler : HTTPException -> M A) : M A :=
  fun db =>
    match m db with
    | (Returned a, db') => (Returned a, db')
    | (Raised e, db') => handler e db'
    | (Failed e, db') => (Failed e, db')
    end.

(** A statement that reads. *)
Definition query {A} (f : Db -> A) : M A := fun db => (Returned (f db), db).

(** A statement that writes, with its commit. *)
Definition execute (f : Db -> Db) : M unit := fun db => (Returned tt, f db).

(** A computation that does not use the database. *)
Definition lift {A} (o : Outcome A) : M A := fun db => (o, db).

Declare Scope proc_scope.
Delimit Scope proc_scope with proc.
Notation "x <- m ;; k" := (bind m (fun x => k))
  (at level 100, m at next level, right associativity) : proc_scope.
Notation "m ;; k" := (bind m (fun _ => k))
  (at level 100, right associativity) : proc_scope.
Local Open Scope proc_scope.

(* ================================================================== *)
(** ** User store                                                      *)
(* ================================================================== *)

(** The dictionary [get_user] returns: the columns it selects. *)
Record UserDict := mkUserDict
  { d_id : Z;
    d_username : string;
    d_password_hash : string;
    d_is_admin : bool }.

Definition get_user (db : Db) (username : string) : option UserDict :=
  match find (fun u => String.eqb (u_username u) username) (users db) with
  | Some u =>
      Some (mkUserDict (u_id u) (u_username u) (u_password_hash u) (u_is_admin u))
  | None => None
  end.

(** [list_users]: [(username, is_admin, created_at)], newest first. *)
Definition list_users (db : Db) : list (string * bool * string) :=
  map (fun u => (u_username u, u_is_admin u, u_created_at u))
      (order_by_desc (fun a b => String.leb (u_created_at a) (u_created_at b))
                     (users db)).

(** [list_users_with_ids]: [(id, username, is_admin, created_at)], highest
    id first. *)
Definition list_users_with_ids (db : Db) : list (Z * string * bool * string) :=
  map (fun u => (u_id u, u_username u, u_is_admin u, u_created_at u))
      (order_by_desc (fun a b => u_id a <=? u_id b) (users db)).

(** [SELECT COUNT( * ) FROM users WHERE is_admin=1] *)
Definition admin_count (db : Db) : nat :=
  List.length (filter u_is_admin (users db)).

(** [INSERT INTO users]: refused with [IntegrityError], reported as 400,
    when the username is taken. *)
Definition create_user (username password : string) (is_admin : bool) : M unit :=
  taken <- query (fun db => existsb (fun u => String.eqb (u_username u) username)
                                    (users db)) ;;
  if taken : bool then
    raise (mkHTTPException 400 "User already exists.")
  else
    execute (fun db =>
      set_users db
        (users db ++ [mkUser (next_id (map u_id (users db))) username
                             (hash_password password) is_admin
                             (current_timestamp db)])).

Definition set_admin_flag (username : string) (is_admin : bool) : M unit :=
  row <- query (fun db =>
           find (fun u => String.eqb (u_username u) username) (users db)) ;;
  match row with
  | None => raise (mkHTTPException 404 "User not found.")
  | Some r =>
      let current_admin := u_is_admin r in
      (if current_admin && negb is_admin then
         admin_total <- query admin_count ;;
         if (admin_total <=? 1)%nat then
           raise (mkHTTPException 400 "Cannot remove the last admin.")
         else ret tt
       else ret tt) ;;
      if Bool.eqb current_admin is_admin then ret tt
      else
        execute (fun db =>
          set_users db
            (update_where (fun u => String.eqb (u_username u) username)
               (fun u => mkUser (u_id u) (u_username u) (u_password_hash u)
                                is_admin (u_created_at u))
               (users db)))
  end.

(** [(admin_total,) = cur.fetchone()] followed by [int(admin_total)], on
    the row of [SELECT COUNT( * )] that holds [n].  A plain cursor returns
    the tuple [(n,)], and the result is [n].  A cursor opened with
    [dictionary=True] returns [{'COUNT( * )': n}]; unpacking a dictionary
    binds its keys, so [admin_total] is the column's name, and [int] of
    that string raises [ValueError]. *)
Definition int_of_count (dictionary : bool) (n : nat) : M nat :=
  if dictionary then fail ValueError else ret n.

(** [update_user_record] opens its cursor with [dictionary=True]. *)
Definition update_user_record (user_id : Z) (username : string) (is_admin : bool)
                              (new_password : option string) : M unit :=
  row <- query (fun db => find (fun u => u_id u =? user_id) (users db)) ;;
  match row with
  | None => raise (mkHTTPException 404 "User not found.")
  | Some r =>
      let current_admin := u_is_admin r in
      (if current_admin && negb is_admin then
         count <- query admin_count ;;
         admin_total <- int_of_count true count ;;
         if (admin_total <=? 1)%nat then
           raise (mkHTTPException 400 "Cannot remove the last admin.")
         else ret tt
       else ret tt) ;;
      let set_password :=
        match new_password with
        | Some p => if truthy p then Some (hash_password p) else None
        | None => None
        end in
      (* IntegrityError: another row already has the new username *)
      collides <- query (fun db =>
        existsb (fun u => negb (u_id u =? user_id) && String.eqb (u_username u) username)
                (users db)) ;;
      if collides : bool then
        raise (mkHTTPException 400 "Username already exists.")
      else
        execute (fun db =>
          set_users db
            (update_where (fun u => u_id u =? user_id)
               (fun u => mkUser (u_id u) username
                           (match set_password with
                            | Some h => h
                            | None => u_password_hash u
                            end)
                           is_admin (u_created_at u))
               (users db)))
  end.

(* ================================================================== *)
(** ** Login event store                                               *)
(* ================================================================== *)

(** [CREATE TABLE IF NOT EXISTS login_events].  The source runs the
    statement on the first call only; nothing drops the table, so
    running it again changes nothing, and that is what the model does. *)
Definition ensure_login_events_table : M unit :=
  execute (fun db =>
    match login_events db with
    | Some _ => db
    | None => set_login_events db []
    end).

Definition record_login_event (username : string) : M unit :=
  ensure_login_events_table ;;
  execute (fun db =>
    set_login_events db
      (events db ++ [mkLoginEvent (next_id (map e_id (events db))) username
                                  (current_timestamp db)])).

Definition list_login_events (limit : Z) : M (list LoginEvent) :=
  ensure_login_events_table ;;
  query (fun db =>
    firstn (Z.to_nat limit)
      (order_by_desc
         (fun a b => String.leb (e_logged_in_at a) (e_logged_in_at b))
         (events db))).

Definition list_login_events_admin (limit : Z) : M (list LoginEvent) :=
  list_login_events limit.

Definition parse_timestamp (value : string) : Outcome string :=
  let cleaned := strip value in
  let cleaned := replace_char "T" " " cleaned in
  match fromisoformat cleaned with
  | None => Raised (mkHTTPException 400 "Invalid timestamp format.")
  | Some parsed => Returned (strftime parsed)
  end.

Definition update_login_event (event_id : Z) (username : string)
                              (logged_in_at : string) : M unit :=
  ensure_login_events_table ;;
  found <- query (fun db => existsb (fun e => e_id e =? event_id) (events db)) ;;
  if negb found then
    raise (mkHTTPException 404 "Login event not found.")
  else
    ts <- lift (parse_timestamp logged_in_at) ;;
    execute (fun db =>
      set_login_events db
        (update_where (fun e => e_id e =? event_id)
           (fun e => mkLoginEvent (e_id e) username ts)
           (events db))).

Definition delete_login_event (event_id : Z) : M unit :=
  ensure_login_events_table ;;
  execute (fun db =>
    set_login_events db
      (delete_where (fun e => e_id e =? event_id) (events db))).

(* ================================================================== *)
(** ** Sessions and request handlers                                   *)
(* ================================================================== *)

Definition SESSION_COOKIE : string := "session_user".

(** What a handler reads of the request: its cookies. *)
Record Request := mkRequest { cookies : list (string * string) }.

(** [cookies.get(key)] *)
Definition cookies_get (request : Request) (key : string) : option string :=
  option_map snd (find (fun kv => String.eqb (fst kv) key) (cookies request)).

Definition current_user (db : Db) (request : Request) : option UserDict :=
  match cookies_get request SESSION_COOKIE with
  | None => None
  | Some username => if truthy username then get_user db username else None
  end.

(** The pages, by the data they show; the markup around it is not
    modelled. *)
Inductive Page : Type :=
| AdminPage (users : list (string * bool * string)) (error success : string)
| EditorPage (users : list (Z * string * bool * string))
             (events : list LoginEvent) (error success : string).

(** A redirect carries its target, its status and the cookie it sets (all
    cookies are set [httponly], [samesite=lax]). *)
Inductive Response : Type :=
| RedirectResponse (url : string) (status : Z) (set_cookie : option (string * string))
| HTMLResponse (title : string) (page : Page) (user : UserDict).

Definition HTTP_303_SEE_OTHER : Z := 303.
Definition HTTP_403_FORBIDDEN : Z := 403.

Definition invalid_credentials : Response :=
  RedirectResponse "/login?error=Invalid%20credentials" HTTP_303_SEE_OTHER None.

(** Whether [str.encode("latin-1")] succeeds: every character is at most
    U+00FF, which in UTF-8 is every byte being at most [0xC3]. *)
Definition latin1 (s : string) : bool :=
  forallb (fun b => b <=? 195) (bytes_of s).

(** [response.set_cookie(key, value, httponly=True, samesite="lax")],
    returning the cookie the response then carries.  Starlette writes
    the header with [http.cookies], which escapes the characters up to
    U+00FF and leaves the others, and then encodes it as latin-1: a value
    with a character above U+00FF raises [UnicodeEncodeError]. *)
Definition set_cookie (key value : string) : M (string * string) :=
  if latin1 value then ret (key, value) else fail UnicodeEncodeError.

Definition login (username password : string) : M Response :=
  user <- query (fun db => get_user db username) ;;
  let rejected :=
    match user with
    | None => true
    | Some u => negb (String.eqb (d_password_hash u) (hash_password password))
    end in
  if rejected then ret invalid_credentials
  else
    record_login_event username ;;
    cookie <- set_cookie SESSION_COOKIE username ;;
    ret (RedirectResponse "/" HTTP_303_SEE_OTHER (Some cookie)).

Definition register (username password : string) : M Response :=
  existing <- query (fun db => get_user db username) ;;
  match existing with
  | Some _ =>
      ret (RedirectResponse "/register?error=User%20already%20exists"
                            HTTP_303_SEE_OTHER None)
  | None =>
      is_first_admin <- query (fun db => (admin_count db =? 0)%nat) ;;
      returned <-
        try_except
          (create_user username password is_first_admin ;; ret None)
          (fun exc =>
             if status_code exc =? 400 then
               ret (Some (RedirectResponse
                            "/register?error=User%20already%20exists"
                            HTTP_303_SEE_OTHER None))
             else raise exc) ;;
      match returned with
      | Some response => ret response
      | None =>
          cookie <- set_cookie SESSION_COOKIE username ;;
          ret (RedirectResponse "/" HTTP_303_SEE_OTHER (Some cookie))
      end
  end.

Definition login_required : Response :=
  RedirectResponse "/login?error=Login%20required" HTTP_303_SEE_OTHER None.

Definition admins_only : HTTPException :=
  mkHTTPException HTTP_403_FORBIDDEN "Admins only".

Definition admin_panel (request : Request) (error success : string)
  : M Response :=
  user <- query (fun db => current_user db request) ;;
  match user with
  | None => ret login_required
  | Some u =>
      if negb (d_is_admin u) then raise admins_only else
      users <- query list_users ;;
      ret (HTMLResponse "Admin" (AdminPage users error success) u)
  end.

Definition table_editor (request : Request) (error success : string)
  : M Response :=
  user <- query (fun db => current_user db request) ;;
  match user with
  | None => ret login_required
  | Some u =>
      if negb (d_is_admin u) then raise admins_only else
      users <- query list_users_with_ids ;;
      events <- list_login_events_admin 200 ;;
      ret (HTMLResponse "Table editor"
                        (EditorPage users events error success) u)
  end.

(** The handlers below end in [try: operation except HTTPException:
    return redirect-with-error] followed by [return redirect]. *)
Definition or_redirect (operation : M unit) (back : string) (success : string)
  : M Response :=
  try_except
    (operation ;;
     ret (RedirectResponse (back ++ "?success=" ++ success)%string
                           HTTP_303_SEE_OTHER None))
    (fun exc =>
       ret (RedirectResponse (back ++ "?error=" ++ quote (detail exc))%string
                             HTTP_303_SEE_OTHER None)).

Definition update_admin_role (request : Request) (username : string)
                             (is_admin : Z) : M Response :=
  user <- query (fun db => current_user db request) ;;
  match user with
  | None => ret login_required
  | Some u =>
      if negb (d_is_admin u) then raise admins_only else
      or_redirect (set_admin_flag username (negb (is_admin =? 0)))
        "/admin"
        (quote ("Updated admin access for " ++ username ++ "."))
  end.

Definition admin_edit_user (request : Request) (user_id : Z)
    (username : string) (is_admin : Z) (new_password : string) : M Response :=
  user <- query (fun db => current_user db request) ;;
  match user with
  | None => ret login_required
  | Some u =>
      if negb (d_is_admin u) then raise admins_only else
      or_redirect
        (update_user_record user_id username (negb (is_admin =? 0))
           (if truthy (strip new_password) then Some (strip new_password)
            else None))
        "/admin/editor" "User%20updated"
  end.

Definition admin_edit_login_event (request : Request) (event_id : Z)
    (username logged_in_at : string) : M Response :=
  user <- query (fun db => current_user db request) ;;
  match user with
  | None => ret login_required
  | Some u =>
      if negb (d_is_admin u) then raise admins_only else
      or_redirect (update_login_event event_id username logged_in_at)
        "/admin/editor" "Login%20event%20updated"
  end.

Definition admin_delete_login_event (request : Request) (event_id : Z)
  : M Response :=
  user <- query (fun db => current_user db request) ;;
  match user with
  | None => ret login_required
  | Some u =>
      if negb (d_is_admin u) then raise admins_only else
      or_redirect (delete_login_event event_id)
        "/admin/editor" "Login%20event%20deleted"
  end.

(** The admin-only routes, each with the parameters of its handler. *)
Inductive AdminRoute : Type :=
| GET_admin (error success : string)
| GET_admin_editor (error success : string)
| POST_admin_role (username : string) (is_admin : Z)
| POST_admin_editor_users_update (user_id : Z) (username : string)
                                 (is_admin : Z) (new_password : string)
| POST_admin_editor_login_update (event_id : Z) (username logged_in_at : string)
| POST_admin_editor_login_delete (event_id : Z).

Definition serve (request : Request) (route : AdminRoute) : M Response :=
  match route with
  | GET_admin error success => admin_panel request error success
  | GET_admin_editor error success => table_editor request error success
  | POST_admin_role username is_admin =>
      update_admin_role request username is_admin
  | POST_admin_editor_users_update user_id username is_admin new_password =>
      admin_edit_user request user_id username is_admin new_password
  | POST_admin_editor_login_update event_id username logged_in_at =>
      admin_edit_login_event request event_id username logged_in_at
  | POST_admin_editor_login_delete event_id =>
      admin_delete_login_event request event_id
  end.

(** The store operation behind each admin-only route. *)
Definition store_operation (route : AdminRoute) : M unit :=
  match route with
  | GET_admin _ _ => query list_users ;; ret tt
  | GET_admin_editor _ _ =>
      query list_users_with_ids ;; list_login_events_admin 200 ;; ret tt
  | POST_admin_role username is_admin =>
      set_admin_flag username (negb (is_admin =? 0))
  | POST_admin_editor_users_update user_id username is_admin new_password =>
      update_user_record user_id username (negb (is_admin =? 0))
        (if truthy (strip new_password) then Some (strip new_password)
         else None)
  | POST_admin_editor_login_update event_id username logged_in_at =>
      update_login_event event_id username logged_in_at
  | POST_admin_editor_login_delete event_id => delete_login_event event_id
  end.

(* ================================================================== *)
(** ** Runs of the system                                              *)
(* ================================================================== *)

(** The database a procedure leaves. *)
Definition after {A} (m : M A) (db : Db) : Db := snd (m db).

(** The constraints the schema puts on [users]: [id] is the primary key
    and [username] is unique. *)
Definition users_schema (db : Db) : Prop :=
  NoDup (map u_id (users db)) /\ NoDup (map u_username (users db)).

(** What the last-admin guard raises. *)
Definition last_admin : HTTPException :=
  mkHTTPException 400 "Cannot remove the last admin.".

(** The two operations that write the admin flag. *)
Inductive StoreOp : Type :=
| SetAdminFlag (username : string) (is_admin : bool)
| UpdateRecord (user_id : Z) (username : string) (is_admin : bool)
               (new_password : option string).

Definition apply_op (op : StoreOp) : M unit :=
  match op with
  | SetAdminFlag username is_admin => set_admin_flag username is_admin
  | UpdateRecord user_id username is_admin new_password =>
      update_user_record user_id username is_admin new_password
  end.

Definition run_ops (ops : list StoreOp) (db : Db) : Db :=
  fold_left (fun db op => after (apply_op op) db) ops db.

(** [op] takes the admin flag from the only admin there is. *)
Definition demotes_sole_admin (db : Db) (op : StoreOp) : Prop :=
  admin_count db = 1%nat /\
  match op with
  | SetAdminFlag username is_admin =>
      is_admin = false /\
      exists r, find (fun u => String.eqb (u_username u) username) (users db)
                = Some r /\ u_is_admin r = true
  | UpdateRecord user_id _ is_admin _ =>
      is_admin = false /\
      exists r, find (fun u => u_id u =? user_id) (users db) = Some r
                /\ u_is_admin r = true
  end.

(** What can happen to a running panel: the clock moves, or a request
    arrives. *)
Inductive Action : Type :=
| Tick (now : string)
| Register (username password : string)
| Login (username password : string)
| Admin (request : Request) (route : AdminRoute).

(** The text fields a request must carry, [Form(...)] in the signature of
    its handler. *)
Definition required_fields (a : Action) : list string :=
  match a with
  | Tick _ => []
  | Register username password | Login username password =>
      [username; password]
  | Admin _ (POST_admin_role username _) => [username]
  | Admin _ (POST_admin_editor_users_update _ username _ _) => [username]
  | Admin _ (POST_admin_editor_login_update _ username logged_in_at) =>
      [username; logged_in_at]
  | Admin _ _ => []
  end.

(** FastAPI takes an empty string in a required form field for a missing
    value: it answers 422 and does not call the handler. *)
Definition validated (a : Action) : bool :=
  forallb truthy (required_fields a).

Definition step (db : Db) (a : Action) : Db :=
  if validated a then
    match a with
    | Tick now => mkDb (users db) (login_events db) now
    | Register username password => after (register username password) db
    | Login username password => after (login username password) db
    | Admin request route => after (serve request route) db
    end
  else db.

Definition run (actions : list Action) (db : Db) : Db :=
  fold_left step actions db.

(** A fresh installation: no user yet, no [login_events] table. *)
Definition fresh_db (now : string) : Db := mkDb [] None now.

(** What holds of the users in every state the panel reaches from a fresh
    installation: the schema's constraints, and an admin as soon as there
    is a user. *)
Definition store_invariant (db : Db) : Prop :=
  users_schema db /\ (users db <> [] -> (1 <= admin_count db)%nat).

(** The row a registration inserts. *)
Definition registered (db : Db) (username password : string) : User :=
  mkUser (next_id (map u_id (users db))) username (hash_password password)
         (admin_count db =? 0)%nat (current_timestamp db).

(** Only the first row is an admin. *)
Definition first_is_only_admin (us : list User) : Prop :=
  match us with
  | [] => True
  | u :: rest => u_is_admin u = true
                 /\ Forall (fun v => u_is_admin v = false) rest
  end.

Definition is_registration (a : Action) : Prop :=
  match a with
  | Tick _ | Register _ _ => True
  | _ => False
  end.

(** The store of the specification's scenario: alice registered first,
    then bob, then alice logged in. *)
Definition alice : User :=
  mkUser 1 "alice"
         "c592df4a86933b92addc9842402ddf198c638ea9be58916ee6e3734e1e3152f8"
         true "2024-01-01 09:00:00".

Definition bob : User :=
  mkUser 2 "bob"
         "93915a0a4bf8f634cb1856494dd4304472ad46b9827f541f76b6761c49cc55b0"
         false "2024-01-01 09:10:00".

Definition alice_and_bob : Db :=
  mkDb [alice; bob] (Some [mkLoginEvent 1 "alice" "2024-01-01 09:20:00"])
       "2024-01-01 09:20:00".

Definition scenario : list Action :=
  [Register "alice" "pw1"; Tick "2024-01-01 09:10:00"; Register "bob" "pw2";
   Tick "2024-01-01 09:20:00"; Login "alice" "pw1"].

(** A request carrying [value] as its session cookie. *)
Definition with_session (value : string) : Request :=
  mkRequest [(SESSION_COOKIE, value)].

(** No row has the empty username. *)
Definition named_users (db : Db) : Prop :=
  Forall (fun u => truthy (u_username u) = true) (users db).

(** A username with a character above U+00FF: its first character is
    U+0141, the bytes [C5 81], followed by [ukasz]. *)
Definition lukasz : string :=
  String (char_of 197) (String (char_of 129) "ukasz").

(** The store after that user has registered on a fresh installation. *)
Definition with_lukasz : Db :=
  mkDb [mkUser 1 lukasz (hash_password "pw4") true "2024-01-01 09:00:00"]
       None "2024-01-01 09:00:00".

(* ================================================================== *)
(** ** The table editor's timestamps, and who acts                     *)
(* ================================================================== *)

(** [strftime("%Y-%m-%dT%H:%M:%S")] *)
Definition strftime_T (d : datetime) : string :=
  (zero_padded 4 (year d) ++ "-" ++ zero_padded 2 (month d) ++ "-"
   ++ zero_padded 2 (day d) ++ "T" ++ zero_padded 2 (hour d) ++ ":"
   ++ zero_padded 2 (minute d) ++ ":" ++ zero_padded 2 (second d))%string.

(** [format_ts], the helper of [table_editor] that fills the
    [datetime-local] field: a value with a [strftime] method (a
    [datetime], left) is formatted with a [T]; of any other value (a
    string, right) the spaces become [T]. *)
Definition format_ts (ts_value : datetime + string) : string :=
  match ts_value with
  | inl d => strftime_T d
  | inr s => replace_char " " "T" s
  end.

(** The characters of a timestamp with [sep] between date and time. *)
Definition stamp (sep : ascii) (d : datetime) : list ascii :=
  pad_digits 4 (year d) ++ "-"%char :: pad_digits 2 (month d)
  ++ "-"%char :: pad_digits 2 (day d) ++ sep :: pad_digits 2 (hour d)
  ++ ":"%char :: pad_digits 2 (minute d) ++ ":"%char :: pad_digits 2 (second d).

(** [a] may come before [b] in a listing that descends along [leb]. *)
Definition descending {A} (leb : A -> A -> bool) (a b : A) : Prop :=
  leb b a = true.

(** The action is an admin-only request whose session resolves to an
    admin. *)
Definition acts_as_admin (db : Db) (a : Action) : Prop :=
  match a with
  | Admin request _ =>
      exists u, current_user db request = Some u /\ d_is_admin u = true
  | _ => False
  end.

(** The dictionary [get_user] makes of a row. *)
Definition user_dict (u : User) : UserDict :=
  mkUserDict (u_id u) (u_username u) (u_password_hash u) (u_is_admin u).

(* ================================================================== *)
(** * Properties                                                       *)
(* ================================================================== *)

(** ** The models of the library functions, on known values *)

Example sha256_constants :
  List.length Sha256.K = 64%nat
  /\ hd 0 Sha256.K = 0x428a2f98 /\ last Sha256.K 0 = 0xc67178f2
  /\ Sha256.H0 = [0x6a09e667; 0xbb67ae85; 0x3c6ef372; 0xa54ff53a;
                  0x510e527f; 0x9b05688c; 0x1f83d9ab; 0x5be0cd19].
Proof. vm_compute. repeat split. Qed.

Example sha256_abc :
  hash_password "abc"
  = "ba7816bf8f01cfea414140de5dae2223b00361a396177a9cb410ff61f20015ad".
Proof. vm_compute. reflexivity. Qed.

Example sha256_empty :
  hash_password ""
  = "e3b0c44298fc1c149afbf4c8996fb92427ae41e4649b934ca495991b7852b855".
Proof. vm_compute. reflexivity. Qed.

Example sha256_two_blocks :
  hash_password (text (repeat "a"%char 64))
  = "ffe054fe7ae0cb6dc65c3af9b61d5209f439851db43d0ba5997337df154668eb".
Proof. vm_compute. reflexivity. Qed.

Example quote_message :
  quote "Cannot remove the last admin." = "Cannot%20remove%20the%20last%20admin.".
Proof. reflexivity. Qed.

Example strip_spaces : strip "  2024-01-05 10:30 " = "2024-01-05 10:30".
Proof. vm_compute. reflexivity. Qed.

Example fromisoformat_date_only :
  option_map strftime (fromisoformat "2024-02-29") = Some "2024-02-29 00:00:00".
Proof. vm_compute. reflexivity. Qed.

Example fromisoformat_no_such_day : fromisoformat "2023-02-29 10:30" = None.
Proof. vm_compute. reflexivity. Qed.

Example scenario_store :
  run scenario (fresh_db "2024-01-01 09:00:00") = alice_and_bob.
Proof. vm_compute. reflexivity. Qed.

(** U+00E9, the bytes [C3 A9], can be encoded as latin-1; U+0141
    cannot. *)
Example latin1_known :
  latin1 "alice" = true
  /\ latin1 (String (char_of 195) (String (char_of 169) "")) = true
  /\ latin1 lukasz = false.
Proof. repeat split. Qed.

(** A registration under such a name stores the row and then fails on the
    cookie; a request with an empty field is not handled at all. *)
Example register_lukasz :
  register lukasz "pw4" (fresh_db "2024-01-01 09:00:00")
  = (Failed UnicodeEncodeError, with_lukasz)
  /\ run [Register lukasz "pw4"] (fresh_db "2024-01-01 09:00:00") = with_lukasz
  /\ run [Register "" "pw4"; Register "dora" ""] (fresh_db "2024-01-01 09:00:00")
     = fresh_db "2024-01-01 09:00:00".
Proof. vm_compute. repeat split. Qed.

(** The editor cannot take the admin flag from alice, nor could it if bob
    were an admin too. *)
Example demotion_by_id :
  update_user_record 1 "alice" false None alice_and_bob
  = (Failed ValueError, alice_and_bob)
  /\ fst (update_user_record 1 "alice" false None
            (run_ops [SetAdminFlag "bob" true] alice_and_bob))
     = Failed ValueError.
Proof. vm_compute. repeat split. Qed.

(** The scenario of the specification: alice cannot be demoted while she
    is the only admin; once bob is promoted there are two admins, alice
    can be demoted, and bob is then the only admin. *)
Example scenario_admins :
  fst (set_admin_flag "alice" false alice_and_bob) = Raised last_admin
  /\ after (set_admin_flag "alice" false) alice_and_bob = alice_and_bob
  /\ admin_count (run_ops [SetAdminFlag "bob" true] alice_and_bob) = 2%nat
  /\ map (fun u => (u_username u, u_is_admin u))
         (users (run_ops [SetAdminFlag "bob" true; SetAdminFlag "alice" false]
                         alice_and_bob))
     = [("alice", false); ("bob", true)].
Proof. vm_compute. repeat split. Qed.

(** ** Reasoning about procedures *)

Ltac proc :=
  unfold bind, query, execute, ret, raise, fail, lift, try_except, after in *.

Lemma string_eqb_true (a b : string) : String.eqb a b = true <-> a = b.
Proof. apply String.eqb_eq. Qed.

Lemma find_username_in (us : list User) (username : string) (r : User) :
  find (fun u => String.eqb (u_username u) username) us = Some r ->
  In r us /\ u_username r = username.
Proof.
  intro H. apply find_some in H. destruct H as [Hin Heq].
  split; [exact Hin | now apply String.eqb_eq].
Qed.

Lemma find_id_in (us : list User) (user_id : Z) (r : User) :
  find (fun u => u_id u =? user_id) us = Some r ->
  In r us /\ u_id r = user_id.
Proof.
  intro H. apply find_some in H. destruct H as [Hin Heq].
  split; [exact Hin | now apply Z.eqb_eq].
Qed.

Lemma get_user_find (db : Db) (username : string) :
  get_user db username
  = option_map
      (fun u => mkUserDict (u_id u) (u_username u) (u_password_hash u)
                           (u_is_admin u))
      (find (fun u => String.eqb (u_username u) username) (users db)).
Proof. unfold get_user. now destruct (find _ _). Qed.

Lemma set_users_same (db : Db) : set_users db (users db) = db.
Proof. now destruct db. Qed.

(** ** C8: [set_admin_flag] on a missing user, and with the flag unchanged *)

(** C8. [set_admin_flag username is_admin] raises 404 "User not found."
    when no user has that username, leaving the database as it was; when
    the user exists and already has the flag [is_admin], it returns
    normally and the database, hence every user record, is unchanged. *)
Theorem set_admin_flag_missing_or_unchanged :
  forall (db : Db) (username : string) (is_admin : bool),
    (get_user db username = None ->
     set_admin_flag username is_admin db
     = (Raised (mkHTTPException 404 "User not found."), db))
    /\
    (forall u, get_user db username = Some u -> d_is_admin u = is_admin ->
     set_admin_flag username is_admin db = (Returned tt, db)).
Proof.
  intros db username is_admin. rewrite get_user_find.
  unfold set_admin_flag. proc.
  destruct (find _ (users db)) as [r|]; simpl; split; try discriminate; auto.
  intros u Hu Hflag. inversion Hu; subst u; simpl in Hflag. rewrite Hflag.
  destruct is_admin; reflexivity.
Qed.

(** ** C5: a rejected [create_user] *)

(** C5. In every state of the user store, [create_user] with a username
    some row already has raises 400 "User already exists." (the conflict)
    and the database after the call is the database before it. *)
Theorem create_user_conflict :
  forall (db : Db) (username password : string) (is_admin : bool),
    (exists u, In u (users db) /\ u_username u = username) ->
    create_user username password is_admin db
    = (Raised (mkHTTPException 400 "User already exists."), db).
Proof.
  intros db username password is_admin [u [Hin Hname]].
  unfold create_user. proc.
  assert (Htaken : existsb (fun v => String.eqb (u_username v) username)
                           (users db) = true).
  { apply existsb_exists. exists u. split; [exact Hin|].
    now apply String.eqb_eq. }
  rewrite Htaken. reflexivity.
Qed.

(** ** C7: session resolution *)

Lemma find_unique_username (us : list User) (u : User) :
  NoDup (map u_username us) -> In u us ->
  find (fun v => String.eqb (u_username v) (u_username u)) us = Some u.
Proof.
  induction us as [|v us IH]; simpl; intros Hnd Hin; [contradiction|].
  inversion Hnd as [|x l Hnotin Hnd']; subst.
  destruct (String.eqb_spec (u_username v) (u_username u)) as [Heq|Hne].
  - destruct Hin as [->|Hin]; [reflexivity|].
    exfalso. apply Hnotin. rewrite Heq. now apply in_map.
  - destruct Hin as [->|Hin]; [congruence|]. now apply IH.
Qed.

Lemma truthy_nonempty (s : string) : s <> "" -> truthy s = true.
Proof. destruct s; [congruence | reflexivity]. Qed.

Lemma truthy_not_empty (s : string) : truthy s = true -> String.eqb s "" = false.
Proof. destruct s; [discriminate | reflexivity]. Qed.

(** Where no row has the empty username, [get_user] of the empty string
    finds nobody. *)
Lemma get_user_empty_name (db : Db) : named_users db -> get_user db "" = None.
Proof.
  unfold named_users. intro Hnamed. rewrite get_user_find.
  induction Hnamed as [|u us Hu _ IH]; [reflexivity|].
  cbn [find]. now rewrite (truthy_not_empty _ Hu).
Qed.

(** There, session resolution is [get_user] of the cookie's value,
    whatever the value. *)
Lemma current_user_get_user (db : Db) (request : Request) :
  named_users db ->
  current_user db request
  = match cookies_get request SESSION_COOKIE with
    | None => None
    | Some value => get_user db value
    end.
Proof.
  intro Hnamed. unfold current_user.
  destruct (cookies_get request SESSION_COOKIE) as [value|]; [|reflexivity].
  destruct value; [|reflexivity].
  symmetry. now apply get_user_empty_name.
Qed.

(** ** C9: deleting a login event *)

Lemma delete_where_absent (es : list LoginEvent) (event_id : Z) :
  (forall e, In e es -> e_id e <> event_id) ->
  delete_where (fun e => e_id e =? event_id) es = es.
Proof.
  unfold delete_where. induction es as [|e es IH]; simpl; intro H; [reflexivity|].
  destruct (Z.eqb_spec (e_id e) event_id) as [Heq|Hne]; simpl.
  - exfalso. apply (H e); auto.
  - f_equal. apply IH. intros; apply H; auto.
Qed.

Lemma delete_where_twice {A} (cond : A -> bool) (rows : list A) :
  delete_where cond (delete_where cond rows) = delete_where cond rows.
Proof.
  unfold delete_where. induction rows as [|r rows IH]; simpl; [reflexivity|].
  destruct (cond r) eqn:Hc; simpl; [exact IH|].
  rewrite Hc. simpl. now rewrite IH.
Qed.

(** C9. [delete_login_event] always returns normally.  When no event has
    the id, the login events (so their number too) and the users are
    what they were.  Deleting the same id a second time returns normally
    again and leaves the database the first deletion produced. *)
Theorem delete_login_event_idempotent :
  forall (db : Db) (event_id : Z),
    fst (delete_login_event event_id db) = Returned tt
    /\ ((forall e, In e (events db) -> e_id e <> event_id) ->
        events (after (delete_login_event event_id) db) = events db
        /\ List.length (events (after (delete_login_event event_id) db))
           = List.length (events db)
        /\ users (after (delete_login_event event_id) db) = users db)
    /\ delete_login_event event_id (after (delete_login_event event_id) db)
       = (Returned tt, after (delete_login_event event_id) db).
Proof.
  intros db event_id.
  unfold delete_login_event, ensure_login_events_table. proc.
  destruct db as [us [es|] now]; unfold events, set_login_events; simpl;
    (split; [reflexivity|]); split.
  - intro H. rewrite (delete_where_absent es event_id H). auto.
  - now rewrite delete_where_twice.
  - auto.
  - reflexivity.
Qed.

(** ** C3 and C10: the login handler *)

Lemma login_rejected (db : Db) (username password : string) :
  match get_user db username with
  | None => True
  | Some u => d_password_hash u <> hash_password password
  end ->
  login username password db = (Returned invalid_credentials, db).
Proof.
  unfold login. proc.
  destruct (get_user db username) as [u|]; [|reflexivity].
  intro Hne. apply String.eqb_neq in Hne. rewrite Hne. reflexivity.
Qed.


(** C10. Against one database, a failed login for a username that does
    not exist and a failed login for a username that exists but with a
    password of another hash give the same result: the 303 redirect to
    [/login?error=Invalid%20credentials] with no cookie, and the database
    unchanged, so no event recorded. *)
Theorem login_failures_indistinguishable :
  forall (db : Db) (username1 password1 username2 password2 : string)
         (u : UserDict),
    get_user db username1 = None ->
    get_user db username2 = Some u ->
    d_password_hash u <> hash_password password2 ->
    login username1 password1 db = login username2 password2 db
    /\ login username1 password1 db
       = (Returned (RedirectResponse "/login?error=Invalid%20credentials"
                      303 None), db).
Proof.
  intros db username1 password1 username2 password2 u Hnone Hsome Hne.
  rewrite (login_rejected db username1 password1) by now rewrite Hnone.
  rewrite (login_rejected db username2 password2) by now rewrite Hsome.
  split; reflexivity.
Qed.

(** ** C6: editing the timestamp of a login event *)

Lemma parse_timestamp_T :
  parse_timestamp "2024-01-05T10:30:00" = Returned "2024-01-05 10:30:00".
Proof. vm_compute. reflexivity. Qed.

Lemma parse_timestamp_space :
  parse_timestamp "2024-01-05 10:30:00" = Returned "2024-01-05 10:30:00".
Proof. vm_compute. reflexivity. Qed.

Lemma parse_timestamp_not_a_date :
  parse_timestamp "not-a-date"
  = Raised (mkHTTPException 400 "Invalid timestamp format.").
Proof. vm_compute. reflexivity. Qed.

Lemma replace_char_append (old new : ascii) (a b : string) :
  replace_char old new (a ++ b)%string
  = (replace_char old new a ++ replace_char old new b)%string.
Proof. induction a as [|c a IH]; simpl; [reflexivity | now rewrite IH]. Qed.

(** Between a date and a time that [strip] leaves alone, [T] and a space
    are read alike. *)
Lemma parse_timestamp_separator (date time : string) :
  strip (date ++ "T" ++ time)%string = (date ++ "T" ++ time)%string ->
  strip (date ++ " " ++ time)%string = (date ++ " " ++ time)%string ->
  parse_timestamp (date ++ "T" ++ time)%string
  = parse_timestamp (date ++ " " ++ time)%string.
Proof.
  intros HT Hsp. unfold parse_timestamp. rewrite HT, Hsp.
  now rewrite !replace_char_append.
Qed.

Lemma events_exist_table (db : Db) (e : LoginEvent) :
  In e (events db) -> login_events db = Some (events db).
Proof. unfold events. destruct (login_events db); [reflexivity | contradiction]. Qed.

Lemma update_login_event_found (db : Db) (event_id : Z)
      (username logged_in_at : string) :
  (exists e, In e (events db) /\ e_id e = event_id) ->
  update_login_event event_id username logged_in_at db
  = match parse_timestamp logged_in_at with
    | Returned ts =>
        (Returned tt,
         set_login_events db
           (update_where (fun e => e_id e =? event_id)
              (fun e => mkLoginEvent (e_id e) username ts) (events db)))
    | Raised exc => (Raised exc, db)
    | Failed exc => (Failed exc, db)
    end.
Proof.
  intros [e [Hin Hid]].
  assert (Hfound : existsb (fun x => e_id x =? event_id) (events db) = true).
  { apply existsb_exists. exists e. split; [exact Hin | now apply Z.eqb_eq]. }
  pose proof (events_exist_table db e Hin) as Htable.
  unfold update_login_event, ensure_login_events_table. proc.
  rewrite Htable. rewrite Hfound. simpl.
  destruct (parse_timestamp logged_in_at); reflexivity.
Qed.

(** C6. For every id an existing login event has, updating with
    ["2024-01-05T10:30:00"] and with ["2024-01-05 10:30:00"] gives the same
    result: both return normally and store the timestamp
    ["2024-01-05 10:30:00"] (and the new username) in the rows of that id.
    Updating with ["not-a-date"] raises 400 "Invalid timestamp format." and
    leaves the database, so the row's username and timestamp, as it
    was. *)
Theorem update_login_event_timestamp :
  forall (db : Db) (event_id : Z) (username : string),
    (exists e, In e (events db) /\ e_id e = event_id) ->
    update_login_event event_id username "2024-01-05T10:30:00" db
    = update_login_event event_id username "2024-01-05 10:30:00" db
    /\ update_login_event event_id username "2024-01-05T10:30:00" db
       = (Returned tt,
          set_login_events db
            (update_where (fun e => e_id e =? event_id)
               (fun e => mkLoginEvent (e_id e) username "2024-01-05 10:30:00")
               (events db)))
    /\ update_login_event event_id username "not-a-date" db
       = (Raised (mkHTTPException 400 "Invalid timestamp format."), db).
Proof.
  intros db event_id username Hex.
  rewrite !(update_login_event_found db event_id username) by exact Hex.
  rewrite parse_timestamp_T, parse_timestamp_space, parse_timestamp_not_a_date.
  repeat split.
Qed.

(** ** C4: the guard of the admin-only routes *)

Lemma or_redirect_result (operation : M unit) (back success : string) (db : Db) :
  (exists url,
     or_redirect operation back success db
     = (Returned (RedirectResponse (back ++ url)%string HTTP_303_SEE_OTHER None),
        after operation db))
  \/ (exists exc,
        or_redirect operation back success db
        = (Failed exc, after operation db)).
Proof.
  unfold or_redirect. proc.
  destruct (operation db) as [[[]|exc|exc] db']; simpl;
    [left | left | right]; eexists; reflexivity.
Qed.

Ltac guard_case H :=
  unfold serve, admin_panel, table_editor, update_admin_role,
    admin_edit_user, admin_edit_login_event, admin_delete_login_event;
  unfold bind at 1; unfold query at 1; cbv beta; rewrite H; cbv iota beta.

Lemma serve_anonymous (db : Db) (request : Request) (route : AdminRoute) :
  current_user db request = None ->
  serve request route db = (Returned login_required, db).
Proof. intro Hnone. destruct route; guard_case Hnone; reflexivity. Qed.

Lemma serve_not_admin (db : Db) (request : Request) (route : AdminRoute)
      (u : UserDict) :
  current_user db request = Some u -> d_is_admin u = false ->
  serve request route db = (Raised admins_only, db).
Proof.
  intros Hu Hflag. destruct route; guard_case Hu; rewrite Hflag; reflexivity.
Qed.

Lemma serve_admin (db : Db) (request : Request) (route : AdminRoute)
      (u : UserDict) :
  current_user db request = Some u -> d_is_admin u = true ->
  after (serve request route) db = after (store_operation route) db
  /\ fst (serve request route db) <> Returned login_required
  /\ fst (serve request route db) <> Raised admins_only.
Proof.
  intros Hu Hflag. unfold after.
  destruct (serve request route db) as [answer db'] eqn:Hserve.
  revert Hserve.
  destruct route; guard_case Hu; rewrite Hflag; cbn [negb];
    unfold store_operation;
    try (match goal with |- context [or_redirect ?op ?b ?s db] =>
           destruct (or_redirect_result op b s db) as [[url ->]|[exc ->]] end;
         intro H; inversion H; subst; repeat split; discriminate).
  - proc. simpl. intro H; inversion H; subst. repeat split; discriminate.
  - unfold list_login_events_admin, list_login_events,
      ensure_login_events_table. proc. simpl. intro H; inversion H; subst.
    repeat split; discriminate.
Qed.

(** C4. For each of the six admin-only routes: when the request resolves
    to no user, the answer is the 303 redirect to
    [/login?error=Login%20required] and the database is unchanged; when it
    resolves to a user who is not an admin, the handler raises 403
    "Admins only" and the database is unchanged; when it resolves to an
    admin, the answer is neither of these and the database is the one the
    route's store operation leaves. *)
Theorem admin_routes_guarded :
  forall (db : Db) (request : Request) (route : AdminRoute),
    (current_user db request = None ->
     serve request route db
     = (Returned (RedirectResponse "/login?error=Login%20required" 303 None),
        db))
    /\ (forall u, current_user db request = Some u -> d_is_admin u = false ->
        serve request route db
        = (Raised (mkHTTPException 403 "Admins only"), db))
    /\ (forall u, current_user db request = Some u -> d_is_admin u = true ->
        after (serve request route) db = after (store_operation route) db
        /\ fst (serve request route db)
           <> Returned (RedirectResponse "/login?error=Login%20required"
                          303 None)
        /\ fst (serve request route db)
           <> Raised (mkHTTPException 403 "Admins only")).
Proof.
  intros db request route. split; [|split].
  - apply serve_anonymous.
  - apply serve_not_admin.
  - apply serve_admin.
Qed.

(** ** The users table under the operations that write it *)

Lemma update_where_length {A} (cond : A -> bool) (set : A -> A) (rows : list A) :
  List.length (update_where cond set rows) = List.length rows.
Proof. unfold update_where. apply length_map. Qed.

Lemma update_where_no_match {A} (cond : A -> bool) (set : A -> A) (rows : list A) :
  (forall r, In r rows -> cond r = false) ->
  update_where cond set rows = rows.
Proof.
  unfold update_where. induction rows as [|r rows IH]; simpl; intro H;
    [reflexivity|].
  rewrite (H r) by auto. f_equal. apply IH. intros; apply H; auto.
Qed.

Lemma update_where_keeps {A B} (f : A -> B) (cond : A -> bool) (set : A -> A)
      (rows : list A) :
  (forall r, f (set r) = f r) ->
  map f (update_where cond set rows) = map f rows.
Proof.
  intro Hf. unfold update_where. rewrite map_map. apply map_ext.
  intro r. destruct (cond r); [apply Hf | reflexivity].
Qed.

Section UniqueKey.

Context {K : Type} (key : User -> K) (eqb : K -> K -> bool).
Hypothesis eqb_eq : forall a b, eqb a b = true <-> a = b.

Lemma key_absent (k : K) (us : list User) :
  ~ In k (map key us) ->
  forall u, In u us -> eqb (key u) k = false.
Proof.
  intros Hnot u Hin. destruct (eqb (key u) k) eqn:He; [|reflexivity].
  exfalso. apply Hnot. apply eqb_eq in He. rewrite <- He. now apply in_map.
Qed.

(** Updating through a unique key changes the row [find] returns for that
    key, and no other: the admin count moves by that row alone. *)
Lemma admin_count_update (k : K) (set : User -> User) (us : list User)
      (r : User) :
  NoDup (map key us) ->
  find (fun u => eqb (key u) k) us = Some r ->
  (List.length (filter u_is_admin
                  (update_where (fun u => eqb (key u) k) set us))
   + (if u_is_admin r then 1 else 0)
   = List.length (filter u_is_admin us)
     + (if u_is_admin (set r) then 1 else 0))%nat.
Proof.
  induction us as [|u us IH]; simpl; intros Hnd Hfind; [discriminate|].
  inversion Hnd as [|x l Hnotin Hnd']; subst.
  fold (update_where (fun v => eqb (key v) k) set us).
  destruct (eqb (key u) k) eqn:He.
  - inversion Hfind; subst r.
    apply eqb_eq in He. rewrite He in Hnotin.
    rewrite (update_where_no_match _ set us (key_absent k us Hnotin)).
    destruct (u_is_admin (set u)), (u_is_admin u); simpl; lia.
  - specialize (IH Hnd' Hfind).
    destruct (u_is_admin u); simpl; lia.
Qed.

End UniqueKey.

Lemma admin_count_append (us : list User) (row : User) :
  List.length (filter u_is_admin (us ++ [row]))
  = (List.length (filter u_is_admin us)
     + if u_is_admin row then 1 else 0)%nat.
Proof.
  rewrite filter_app, length_app. simpl.
  destruct (u_is_admin row); reflexivity.
Qed.

Lemma next_id_above (ids : list Z) (i : Z) : In i ids -> i < next_id ids.
Proof.
  unfold next_id. induction ids as [|j ids IH]; simpl; [contradiction|].
  intros [->|Hin]; [lia|]. specialize (IH Hin). lia.
Qed.

Lemma next_id_fresh (ids : list Z) : ~ In (next_id ids) ids.
Proof. intro Hin. apply next_id_above in Hin. lia. Qed.

Lemma NoDup_snoc {A} (l : list A) (x : A) :
  NoDup l -> ~ In x l -> NoDup (l ++ [x]).
Proof.
  intros Hnd Hnot. apply NoDup_app; [exact Hnd | repeat constructor; auto |].
  intros a Hin [<-|[]]. contradiction.
Qed.

Lemma existsb_false {A} (f : A -> bool) (l : list A) :
  existsb f l = false -> forall x, In x l -> f x = false.
Proof.
  intros H x Hin. destruct (f x) eqn:Hf; [|reflexivity].
  rewrite <- H. symmetry. apply existsb_exists. now exists x.
Qed.

(** Renaming the row of id [user_id] keeps usernames unique when no other
    row has the new name. *)
Lemma rename_keeps_unique (user_id : Z) (username : string)
      (set : User -> User) (us : list User) :
  (forall u, u_username (set u) = username) ->
  NoDup (map u_id us) -> NoDup (map u_username us) ->
  existsb (fun u => negb (u_id u =? user_id) && String.eqb (u_username u) username)
          us = false ->
  NoDup (map u_username (update_where (fun u => u_id u =? user_id) set us)).
Proof.
  intros Hset. induction us as [|u us IH]; simpl; intros Hid Hname Hcol;
    [constructor|].
  inversion Hid as [|x l Hid_notin Hid']; subst.
  inversion Hname as [|x l Hname_notin Hname']; subst.
  apply orb_false_iff in Hcol. destruct Hcol as [Hu Hcol].
  fold (update_where (fun v => u_id v =? user_id) set us).
  destruct (Z.eqb_spec (u_id u) user_id) as [Heq|Hne].
  - rewrite update_where_no_match.
    + rewrite Hset. constructor; [|exact Hname'].
      intro Hin. apply in_map_iff in Hin. destruct Hin as [v [Hv Hin]].
      apply (existsb_false _ _ Hcol) in Hin as Hv'.
      assert (Hother : u_id v <> user_id).
      { intro E. apply Hid_notin. rewrite Heq, <- E. now apply in_map. }
      apply Z.eqb_neq in Hother. rewrite Hother in Hv'. simpl in Hv'.
      rename Hv' into Hcol'.
      apply String.eqb_neq in Hcol'. congruence.
    + intros v Hin. apply Z.eqb_neq. intro E. apply Hid_notin.
      rewrite Heq, <- E. now apply in_map.
  - simpl in Hu. apply String.eqb_neq in Hu.
    constructor; [|now apply IH].
    intro Hin. apply in_map_iff in Hin. destruct Hin as [v [Hv Hin]].
    unfold update_where in Hin. apply in_map_iff in Hin.
    destruct Hin as [w [Hw Hin]].
    destruct (u_id w =? user_id); subst v.
    + rewrite Hset in Hv. congruence.
    + apply Hname_notin. rewrite <- Hv. now apply in_map.
Qed.

Lemma set_admin_flag_result (db : Db) (username : string) (is_admin : bool) :
  set_admin_flag username is_admin db
  = match find (fun u => String.eqb (u_username u) username) (users db) with
    | None => (Raised (mkHTTPException 404 "User not found."), db)
    | Some r =>
        if u_is_admin r && negb is_admin && (admin_count db <=? 1)%nat
        then (Raised last_admin, db)
        else if Bool.eqb (u_is_admin r) is_admin then (Returned tt, db)
        else (Returned tt,
              set_users db
                (update_where (fun u => String.eqb (u_username u) username)
                   (fun u => mkUser (u_id u) (u_username u) (u_password_hash u)
                                    is_admin (u_created_at u))
                   (users db)))
    end.
Proof.
  unfold set_admin_flag. proc.
  destruct (find _ (users db)) as [r|]; [|reflexivity].
  destruct (u_is_admin r), is_admin; simpl; try reflexivity.
  destruct (admin_count db <=? 1)%nat; reflexivity.
Qed.

Lemma update_user_record_result (db : Db) (user_id : Z) (username : string)
      (is_admin : bool) (new_password : option string) :
  update_user_record user_id username is_admin new_password db
  = match find (fun u => u_id u =? user_id) (users db) with
    | None => (Raised (mkHTTPException 404 "User not found."), db)
    | Some r =>
        if u_is_admin r && negb is_admin
        then (Failed ValueError, db)
        else if existsb (fun u => negb (u_id u =? user_id)
                                  && String.eqb (u_username u) username)
                        (users db)
        then (Raised (mkHTTPException 400 "Username already exists."), db)
        else (Returned tt,
              set_users db
                (update_where (fun u => u_id u =? user_id)
                   (fun u => mkUser (u_id u) username
                      (match match new_password with
                             | Some p => if truthy p
                                         then Some (hash_password p) else None
                             | None => None
                             end with
                       | Some h => h
                       | None => u_password_hash u
                       end)
                      is_admin (u_created_at u))
                   (users db)))
    end.
Proof.
  unfold update_user_record, int_of_count. proc.
  destruct (find _ (users db)) as [r|]; [|reflexivity].
  destruct (u_is_admin r), is_admin; simpl;
    repeat match goal with
           | |- context [existsb ?f (users db)] => destruct (existsb f (users db))
           end; reflexivity.
Qed.

Lemma admin_count_set_users (db : Db) (us : list User) :
  admin_count (set_users db us) = List.length (filter u_is_admin us).
Proof. reflexivity. Qed.

(** Neither write operation breaks the schema, empties the admins of a
    store that has one, or adds a row. *)
Lemma apply_op_keeps (db : Db) (op : StoreOp) :
  users_schema db ->
  users_schema (after (apply_op op) db)
  /\ ((1 <= admin_count db)%nat ->
      (1 <= admin_count (after (apply_op op) db))%nat)
  /\ List.length (users (after (apply_op op) db)) = List.length (users db).
Proof.
  intros [Hid Hname]. unfold after.
  destruct op as [username is_admin | user_id username is_admin new_password];
    simpl apply_op.
  - rewrite set_admin_flag_result.
    destruct (find _ (users db)) as [r|] eqn:Hfind;
      [|repeat split; auto].
    destruct (u_is_admin r && negb is_admin && (admin_count db <=? 1)%nat)
      eqn:Hguard; [repeat split; auto|].
    destruct (Bool.eqb (u_is_admin r) is_admin) eqn:Hsame;
      [repeat split; auto|].
    cbn [snd]. split; [|split].
    + split; cbn [users set_users];
        rewrite update_where_keeps by reflexivity; assumption.
    + intro Hone. rewrite admin_count_set_users.
      pose proof (admin_count_update u_username String.eqb String.eqb_eq
                    username
                    (fun u => mkUser (u_id u) (u_username u) (u_password_hash u)
                                     is_admin (u_created_at u))
                    (users db) r Hname Hfind) as Hcount.
      cbn [u_is_admin] in Hcount. fold (admin_count db) in Hcount.
      destruct (u_is_admin r), is_admin; simpl in *; try discriminate;
        [|lia].
      apply Nat.leb_gt in Hguard. lia.
    + cbn [users set_users]. apply update_where_length.
  - rewrite update_user_record_result.
    destruct (find _ (users db)) as [r|] eqn:Hfind;
      [|repeat split; auto].
    destruct (u_is_admin r && negb is_admin) eqn:Hguard;
      [repeat split; auto|].
    destruct (existsb _ (users db)) eqn:Hcollide; [repeat split; auto|].
    cbn [snd]. split; [|split].
    + split; cbn [users set_users].
      * rewrite update_where_keeps by reflexivity. assumption.
      * apply rename_keeps_unique with (username := username); auto.
    + intro Hone. rewrite admin_count_set_users.
      match goal with |- context [update_where _ ?set _] =>
        pose proof (admin_count_update u_id Z.eqb Z.eqb_eq user_id set
                      (users db) r Hid Hfind) as Hcount end.
      cbn [u_is_admin] in Hcount. fold (admin_count db) in Hcount.
      destruct (u_is_admin r), is_admin; simpl in *; try lia;
        discriminate Hguard.
    + cbn [users set_users]. apply update_where_length.
Qed.

Lemma run_ops_keeps (ops : list StoreOp) :
  forall db, users_schema db -> (1 <= admin_count db)%nat ->
  users_schema (run_ops ops db) /\ (1 <= admin_count (run_ops ops db))%nat.
Proof.
  unfold run_ops. induction ops as [|op ops IH]; simpl; intros db Hs Hone;
    [auto|].
  destruct (apply_op_keeps db op Hs) as [Hs' [Hone' _]].
  apply IH; auto.
Qed.

(** What a demotion of the only admin meets: the guard by username, the
    failed conversion of the count by id. *)
Lemma guard_refuses (db : Db) (op : StoreOp) :
  demotes_sole_admin db op ->
  apply_op op db
  = (match op with
     | SetAdminFlag _ _ => Raised last_admin
     | UpdateRecord _ _ _ _ => Failed ValueError
     end, db).
Proof.
  intros [Hone Hop].
  destruct op as [username is_admin | user_id username is_admin new_password];
    destruct Hop as [-> [r [Hfind Hadmin]]]; simpl apply_op.
  - rewrite set_admin_flag_result, Hfind, Hadmin, Hone. reflexivity.
  - rewrite update_user_record_result, Hfind, Hadmin. reflexivity.
Qed.

(** By id no admin is ever demoted, whatever the number of admins. *)
Lemma demotion_by_id_fails (db : Db) (user_id : Z) (username : string)
      (new_password : option string) (r : User) :
  find (fun u => u_id u =? user_id) (users db) = Some r ->
  u_is_admin r = true ->
  update_user_record user_id username false new_password db
  = (Failed ValueError, db).
Proof.
  intros Hfind Hadmin.
  rewrite update_user_record_result, Hfind, Hadmin. reflexivity.
Qed.

(** ** C1: the last admin *)

(** C1, what the code does.  From a store that satisfies the schema and
    has at least one admin, no sequence of [set_admin_flag] and
    [update_user_record] calls reaches a store without an admin, and a
    call that would take the flag from the only admin leaves the database
    as it was.  By username, [set_admin_flag] refuses it with 400 "Cannot
    remove the last admin.".  By id, [update_user_record] does not: it
    fails with [ValueError] on the count it reads, and so it does for
    every demotion of an admin, also while other admins remain. *)
Theorem last_admin_guard :
  forall (db : Db) (ops : list StoreOp),
    users_schema db -> (1 <= admin_count db)%nat ->
    (1 <= admin_count (run_ops ops db))%nat
    /\ (forall db' username, demotes_sole_admin db' (SetAdminFlag username false) ->
        set_admin_flag username false db'
        = (Raised (mkHTTPException 400 "Cannot remove the last admin."), db'))
    /\ (forall db' user_id username new_password r,
        find (fun u => u_id u =? user_id) (users db') = Some r ->
        u_is_admin r = true ->
        update_user_record user_id username false new_password db'
        = (Failed ValueError, db')).
Proof.
  intros db ops Hs Hone. split; [|split].
  - apply run_ops_keeps; assumption.
  - intros db' username Hsole.
    exact (guard_refuses db' (SetAdminFlag username false) Hsole).
  - intros db' user_id username new_password r.
    apply demotion_by_id_fails.
Qed.

(** ** C2: the first registered user *)

Lemma find_none_existsb {A} (f : A -> bool) (l : list A) :
  find f l = None -> existsb f l = false.
Proof.
  induction l as [|x l IH]; simpl; [reflexivity|].
  destruct (f x); [discriminate | exact IH].
Qed.

Lemma register_result (db : Db) (username password : string) :
  register username password db
  = match get_user db username with
    | Some _ =>
        (Returned (RedirectResponse "/register?error=User%20already%20exists"
                     HTTP_303_SEE_OTHER None), db)
    | None =>
        ((if latin1 username
          then Returned (RedirectResponse "/" HTTP_303_SEE_OTHER
                           (Some (SESSION_COOKIE, username)))
          else Failed UnicodeEncodeError),
         set_users db (users db ++ [registered db username password]))
    end.
Proof.
  unfold register, set_cookie. proc. rewrite get_user_find.
  destruct (find _ (users db)) as [r|] eqn:Hfind; simpl; [reflexivity|].
  unfold create_user. proc. rewrite (find_none_existsb _ _ Hfind).
  destruct (latin1 username); reflexivity.
Qed.

Lemma store_invariant_users (db db' : Db) :
  users db' = users db -> store_invariant db -> store_invariant db'.
Proof.
  unfold store_invariant, users_schema, admin_count. now intros ->.
Qed.

Lemma register_keeps (db : Db) (username password : string) :
  store_invariant db -> store_invariant (after (register username password) db).
Proof.
  intros [[Hid Hname] Hadmin]. unfold after. rewrite register_result.
  rewrite get_user_find.
  destruct (find _ (users db)) as [r|] eqn:Hfind; cbn [option_map snd];
    [repeat split; assumption|].
  unfold store_invariant, users_schema. cbn [users set_users].
  rewrite !map_app. cbn [map registered u_id u_username].
  repeat split.
  - apply NoDup_snoc; [exact Hid | apply next_id_fresh].
  - apply NoDup_snoc; [exact Hname|].
    intro Hin. apply in_map_iff in Hin. destruct Hin as [v [Hv Hin]].
    apply (find_none _ _ Hfind) in Hin. apply String.eqb_neq in Hin.
    contradiction.
  - intros _. rewrite admin_count_set_users, admin_count_append.
    fold (admin_count db). cbn [registered u_is_admin].
    destruct (admin_count db =? 0)%nat eqn:Hzero; [lia|].
    apply Nat.eqb_neq in Hzero. lia.
Qed.

Lemma login_users (db : Db) (username password : string) :
  users (after (login username password) db) = users db.
Proof.
  unfold after, login, record_login_event, ensure_login_events_table,
    set_cookie. proc.
  destruct (get_user db username) as [u|]; [|reflexivity].
  destruct (String.eqb _ _); simpl; [|reflexivity].
  destruct (login_events db), (latin1 username); reflexivity.
Qed.

Lemma store_operation_keeps (db : Db) (route : AdminRoute) :
  store_invariant db -> store_invariant (after (store_operation route) db).
Proof.
  intro Hinv.
  assert (Hop : forall op, store_invariant (after (apply_op op) db)).
  { intro op. destruct Hinv as [Hs Hadmin].
    destruct (apply_op_keeps db op Hs) as [Hs' [Hone Hlen]].
    split; [exact Hs'|]. intro Hnonempty. apply Hone, Hadmin.
    intro Hempty. apply Hnonempty. rewrite Hempty in Hlen.
    now apply length_zero_iff_nil. }
  destruct route; simpl store_operation.
  - exact Hinv.
  - apply (store_invariant_users db); [|exact Hinv].
    unfold after, list_login_events_admin, list_login_events,
      ensure_login_events_table. proc. simpl.
    destruct (login_events db); reflexivity.
  - apply (Hop (SetAdminFlag username (negb (is_admin =? 0)))).
  - apply (Hop (UpdateRecord user_id username (negb (is_admin =? 0)) _)).
  - apply (store_invariant_users db); [|exact Hinv].
    unfold after, update_login_event, ensure_login_events_table. proc. simpl.
    destruct (login_events db); simpl;
      repeat match goal with
             | |- context [existsb ?f ?l] => destruct (existsb f l); simpl
             end;
      try reflexivity;
      destruct (parse_timestamp logged_in_at); reflexivity.
  - apply (store_invariant_users db); [|exact Hinv].
    unfold after, delete_login_event, ensure_login_events_table. proc. simpl.
    destruct (login_events db); reflexivity.
Qed.

Lemma step_keeps (db : Db) (a : Action) :
  store_invariant db -> store_invariant (step db a).
Proof.
  intro Hinv. unfold step. destruct (validated a); [|exact Hinv].
  destruct a as [now | u p | u p | request route]; simpl.
  - exact Hinv.
  - now apply register_keeps.
  - apply (store_invariant_users db); [apply login_users | exact Hinv].
  - destruct (current_user db request) as [u|] eqn:Hu.
    + destruct (d_is_admin u) eqn:Hflag.
      * destruct (serve_admin db request route u Hu Hflag) as [-> _].
        now apply store_operation_keeps.
      * unfold after. now rewrite (serve_not_admin db request route u Hu Hflag).
    + unfold after. now rewrite (serve_anonymous db request route Hu).
Qed.

(** Every state reached from a fresh installation satisfies the
    invariant. *)
Lemma reachable_invariant (actions : list Action) (now : string) :
  store_invariant (run actions (fresh_db now)).
Proof.
  assert (Hrun : forall db, store_invariant db -> store_invariant (run actions db)).
  { unfold run. induction actions as [|a actions IH]; simpl; intros db Hinv;
      [exact Hinv|]. apply IH, step_keeps, Hinv. }
  apply Hrun. repeat split; simpl; try constructor. congruence.
Qed.

Lemma registration_keeps_shape (db : Db) (a : Action) :
  is_registration a ->
  first_is_only_admin (users db) -> first_is_only_admin (users (step db a)).
Proof.
  unfold step. destruct (validated a); [|auto].
  destruct a as [now | username password | |]; simpl; try contradiction;
    intros _ Hshape; [exact Hshape|].
  unfold after. rewrite register_result.
  destruct (get_user db username); cbn [snd]; [exact Hshape|].
  cbn [users set_users]. unfold registered, admin_count.
  destruct (users db) as [|u rest]; simpl in *.
  - split; [reflexivity | constructor].
  - destruct Hshape as [Hu Hrest]. rewrite Hu. simpl.
    split; [reflexivity|].
    apply Forall_app. split; [exact Hrest | repeat constructor].
Qed.

Lemma registrations_keep_shape (actions : list Action) :
  Forall is_registration actions ->
  forall db, first_is_only_admin (users db) ->
             first_is_only_admin (users (run actions db)).
Proof.
  unfold run. induction 1 as [|a actions Ha _ IH]; simpl; intros db Hshape;
    [exact Hshape|].
  apply IH. now apply registration_keeps_shape.
Qed.

(** C2. In every state [db] the panel reaches from a fresh installation,
    whatever requests came before: a registration under a free username
    stores one new row, whose admin flag is [admin_count db = 0], which is
    [true] when [db] has no user (the first user ever) and [false]
    otherwise, and answers with the redirect home that sets the session
    cookie (with [UnicodeEncodeError], the row stored all the same, when
    the username has a character above U+00FF); a registration under a
    taken username stores nothing.  So after registrations alone, the
    first row is an admin and no later row is. *)
Theorem first_user_is_admin :
  forall (actions : list Action) (now username password : string),
    (get_user (run actions (fresh_db now)) username = None ->
     exists row,
       register username password (run actions (fresh_db now))
       = ((if latin1 username
           then Returned (RedirectResponse "/" 303
                            (Some (SESSION_COOKIE, username)))
           else Failed UnicodeEncodeError),
          set_users (run actions (fresh_db now))
                    (users (run actions (fresh_db now)) ++ [row]))
       /\ u_username row = username
       /\ u_password_hash row = hash_password password
       /\ u_is_admin row = (admin_count (run actions (fresh_db now)) =? 0)%nat
       /\ u_is_admin row = match users (run actions (fresh_db now)) with
                           | [] => true
                           | _ :: _ => false
                           end)
    /\ (get_user (run actions (fresh_db now)) username <> None ->
        register username password (run actions (fresh_db now))
        = (Returned (RedirectResponse "/register?error=User%20already%20exists"
                       303 None),
           run actions (fresh_db now)))
    /\ (Forall is_registration actions ->
        first_is_only_admin (users (run actions (fresh_db now)))).
Proof.
  intros actions now username password.
  pose proof (reachable_invariant actions now) as [_ Hadmin].
  remember (run actions (fresh_db now)) as db eqn:Hdb.
  split; [|split].
  - intro Hfree. exists (registered db username password).
    rewrite register_result, Hfree. repeat split.
    unfold registered. cbn [u_is_admin]. unfold admin_count in *.
    destruct (users db) as [|u rest]; [reflexivity|].
    apply Nat.eqb_neq. specialize (Hadmin ltac:(discriminate)). lia.
  - intro Htaken. rewrite register_result.
    destruct (get_user db username); [reflexivity | congruence].
  - intro Hreg. subst db. apply registrations_keep_shape; [exact Hreg|].
    exact I.
Qed.

(** ** C7: session resolution *)

Lemma Forall_update_where {A} (P : A -> Prop) (cond : A -> bool) (set : A -> A)
      (rows : list A) :
  (forall r, P r -> P (set r)) ->
  Forall P rows -> Forall P (update_where cond set rows).
Proof.
  intros Hset Hrows. unfold update_where. apply Forall_map.
  eapply Forall_impl; [|exact Hrows].
  intros r Hr. destruct (cond r); [now apply Hset | exact Hr].
Qed.

Lemma named_users_same (db db' : Db) :
  users db' = users db -> named_users db -> named_users db'.
Proof. unfold named_users. now intros ->. Qed.

(** The routes that edit login events, and the pages, leave the users
    alone. *)
Lemma store_operation_users (db : Db) (route : AdminRoute) :
  match route with
  | POST_admin_role _ _ | POST_admin_editor_users_update _ _ _ _ => True
  | _ => users (after (store_operation route) db) = users db
  end.
Proof.
  destruct route; simpl store_operation; try exact I.
  - reflexivity.
  - unfold after, list_login_events_admin, list_login_events,
      ensure_login_events_table. proc. simpl.
    destruct (login_events db); reflexivity.
  - unfold after, update_login_event, ensure_login_events_table. proc. simpl.
    destruct (login_events db); simpl;
      repeat match goal with
             | |- context [existsb ?f ?l] => destruct (existsb f l); simpl
             end;
      try reflexivity;
      destruct (parse_timestamp logged_in_at); reflexivity.
  - unfold after, delete_login_event, ensure_login_events_table. proc. simpl.
    destruct (login_events db); reflexivity.
Qed.

Lemma store_operation_named (db : Db) (request : Request) (route : AdminRoute) :
  validated (Admin request route) = true ->
  named_users db -> named_users (after (store_operation route) db).
Proof.
  intros Hvalid Hnamed.
  pose proof (store_operation_users db route) as Husers.
  destruct route; try (apply (named_users_same db); assumption);
    simpl store_operation; unfold after.
  - rewrite set_admin_flag_result.
    destruct (find _ (users db)) as [r|]; [|exact Hnamed].
    destruct (_ && _); [exact Hnamed|].
    destruct (Bool.eqb _ _); [exact Hnamed|].
    unfold named_users. cbn [snd users set_users].
    apply Forall_update_where; [|exact Hnamed]. auto.
  - rewrite update_user_record_result.
    destruct (find _ (users db)) as [r|]; [|exact Hnamed].
    destruct (_ && _); [exact Hnamed|].
    destruct (existsb _ _); [exact Hnamed|].
    unfold named_users. cbn [snd users set_users].
    apply Forall_update_where; [|exact Hnamed].
    intros u _. cbn [u_username].
    unfold validated in Hvalid. cbn [required_fields forallb] in Hvalid.
    now apply andb_true_iff in Hvalid.
Qed.

Lemma step_named (db : Db) (a : Action) :
  named_users db -> named_users (step db a).
Proof.
  intro Hnamed. unfold step. destruct (validated a) eqn:Hvalid; [|exact Hnamed].
  destruct a as [now | username password | username password | request route].
  - exact Hnamed.
  - unfold after. rewrite register_result.
    destruct (get_user db username); [exact Hnamed|].
    unfold named_users. cbn [snd users set_users].
    apply Forall_app. split; [exact Hnamed|].
    constructor; [|constructor]. cbn [registered u_username].
    unfold validated in Hvalid. cbn [required_fields forallb] in Hvalid.
    now apply andb_true_iff in Hvalid.
  - apply (named_users_same db); [apply login_users | exact Hnamed].
  - destruct (current_user db request) as [u|] eqn:Hu.
    + destruct (d_is_admin u) eqn:Hflag.
      * destruct (serve_admin db request route u Hu Hflag) as [-> _].
        now apply (store_operation_named db request).
      * unfold after. now rewrite (serve_not_admin db request route u Hu Hflag).
    + unfold after. now rewrite (serve_anonymous db request route Hu).
Qed.

(** No state reached from a fresh installation has a row with the empty
    username: the forms that name a user refuse the empty string. *)
Lemma reachable_named (actions : list Action) (now : string) :
  named_users (run actions (fresh_db now)).
Proof.
  assert (Hrun : forall db, named_users db -> named_users (run actions db)).
  { unfold run. induction actions as [|a actions IH]; simpl; intros db Hnamed;
      [exact Hnamed|]. apply IH, step_named, Hnamed. }
  apply Hrun. constructor.
Qed.

(** C7. In every state the panel reaches from a fresh installation and
    for every request, [current_user] is absent when the request has no
    session cookie and is otherwise exactly [get_user] of the cookie's
    value; so a request whose cookie is the username of a stored user
    resolves to that user, with nothing else checked. *)
Theorem current_user_resolution :
  forall (actions : list Action) (now : string) (request : Request),
    current_user (run actions (fresh_db now)) request
    = match cookies_get request SESSION_COOKIE with
      | None => None
      | Some value => get_user (run actions (fresh_db now)) value
      end
    /\ (forall u, In u (users (run actions (fresh_db now))) ->
        cookies_get request SESSION_COOKIE = Some (u_username u) ->
        current_user (run actions (fresh_db now)) request = Some (user_dict u)).
Proof.
  intros actions now request.
  pose proof (reachable_named actions now) as Hnamed.
  pose proof (reachable_invariant actions now) as [[_ Hunique] _].
  split; [now apply current_user_get_user|].
  intros u Hin Hcookie.
  rewrite (current_user_get_user _ _ Hnamed), Hcookie, get_user_find.
  now rewrite find_unique_username.
Qed.

(** ** The theorems on the scenario's store *)

Lemma alice_and_bob_schema : users_schema alice_and_bob.
Proof.
  split; simpl;
    (constructor; [simpl; intros [H|[]]; discriminate H|]);
    (constructor; [intros []|]); constructor.
Defined.

Lemma last_admin_guard_witness :
  users_schema alice_and_bob
  /\ (1 <= admin_count alice_and_bob)%nat
  /\ (1 <= admin_count
            (run_ops [SetAdminFlag "alice" false; SetAdminFlag "bob" true;
                      UpdateRecord 1 "alice" false None] alice_and_bob))%nat
  /\ set_admin_flag "alice" false alice_and_bob
     = (Raised (mkHTTPException 400 "Cannot remove the last admin."),
        alice_and_bob)
  /\ update_user_record 1 "alice" false None alice_and_bob
     = (Failed ValueError, alice_and_bob)
  /\ serve (with_session "alice")
           (POST_admin_editor_users_update 1 "alice" 0 "") alice_and_bob
     = (Failed ValueError, alice_and_bob).
Proof.
  assert (Hone : (1 <= admin_count alice_and_bob)%nat) by (vm_compute; lia).
  destruct (last_admin_guard alice_and_bob
              [SetAdminFlag "alice" false; SetAdminFlag "bob" true;
               UpdateRecord 1 "alice" false None]
              alice_and_bob_schema Hone) as [Hrun [Hname Hid]].
  split; [exact alice_and_bob_schema|]. split; [exact Hone|].
  split; [exact Hrun|]. split; [|split].
  - apply Hname. split; [reflexivity|]. split; [reflexivity|].
    exists alice. split; reflexivity.
  - apply (Hid alice_and_bob 1 "alice" None alice); reflexivity.
  - vm_compute. reflexivity.
Defined.

Lemma first_user_is_admin_witness :
  (exists row,
     register "alice" "pw1" (run [] (fresh_db "2024-01-01 09:00:00"))
     = (Returned (RedirectResponse "/" 303 (Some (SESSION_COOKIE, "alice"))),
        set_users (run [] (fresh_db "2024-01-01 09:00:00"))
                  (users (run [] (fresh_db "2024-01-01 09:00:00")) ++ [row]))
     /\ u_is_admin row = true)
  /\ (exists row,
        register "bob" "pw2"
                 (run [Register "alice" "pw1"] (fresh_db "2024-01-01 09:00:00"))
        = (Returned (RedirectResponse "/" 303 (Some (SESSION_COOKIE, "bob"))),
           set_users
             (run [Register "alice" "pw1"] (fresh_db "2024-01-01 09:00:00"))
             (users (run [Register "alice" "pw1"]
                         (fresh_db "2024-01-01 09:00:00")) ++ [row]))
        /\ u_is_admin row = false)
  /\ register "alice" "pw9"
              (run [Register "alice" "pw1"] (fresh_db "2024-01-01 09:00:00"))
     = (Returned (RedirectResponse "/register?error=User%20already%20exists"
                    303 None),
        run [Register "alice" "pw1"] (fresh_db "2024-01-01 09:00:00"))
  /\ first_is_only_admin
       (users (run [Register "alice" "pw1"; Tick "2024-01-01 09:10:00";
                    Register "bob" "pw2"] (fresh_db "2024-01-01 09:00:00")))
  /\ (exists row,
        register lukasz "pw4" (run [] (fresh_db "2024-01-01 09:00:00"))
        = (Failed UnicodeEncodeError,
           set_users (run [] (fresh_db "2024-01-01 09:00:00"))
                     (users (run [] (fresh_db "2024-01-01 09:00:00")) ++ [row]))
        /\ u_is_admin row = true).
Proof.
  split; [|split; [|split; [|split]]].
  - destruct (first_user_is_admin [] "2024-01-01 09:00:00" "alice" "pw1")
      as [Hfree _].
    destruct (Hfree eq_refl) as [row [Hreg [_ [_ [_ Hflag]]]]].
    exists row. split; [exact Hreg | exact Hflag].
  - destruct (first_user_is_admin [Register "alice" "pw1"]
                "2024-01-01 09:00:00" "bob" "pw2") as [Hfree _].
    assert (Hbob : get_user (run [Register "alice" "pw1"]
                                 (fresh_db "2024-01-01 09:00:00")) "bob" = None)
      by (vm_compute; reflexivity).
    destruct (Hfree Hbob) as [row [Hreg [_ [_ [_ Hflag]]]]].
    exists row. split; [exact Hreg | exact Hflag].
  - destruct (first_user_is_admin [Register "alice" "pw1"]
                "2024-01-01 09:00:00" "alice" "pw9") as [_ [Htaken _]].
    apply Htaken. vm_compute. discriminate.
  - destruct (first_user_is_admin
                [Register "alice" "pw1"; Tick "2024-01-01 09:10:00";
                 Register "bob" "pw2"] "2024-01-01 09:00:00" "" "")
      as [_ [_ Hshape]].
    apply Hshape. repeat constructor.
  - destruct (first_user_is_admin [] "2024-01-01 09:00:00" lukasz "pw4")
      as [Hfree _].
    destruct (Hfree eq_refl) as [row [Hreg [_ [_ [_ Hflag]]]]].
    exists row. split; [exact Hreg | exact Hflag].
Defined.


Lemma admin_routes_guarded_witness :
  serve (mkRequest []) (POST_admin_role "bob" 1) alice_and_bob
  = (Returned (RedirectResponse "/login?error=Login%20required" 303 None),
     alice_and_bob)
  /\ serve (with_session "bob") (POST_admin_role "bob" 1) alice_and_bob
     = (Raised (mkHTTPException 403 "Admins only"), alice_and_bob)
  /\ after (serve (with_session "alice") (POST_admin_role "bob" 1))
           alice_and_bob
     = after (store_operation (POST_admin_role "bob" 1)) alice_and_bob.
Proof.
  split; [|split].
  - destruct (admin_routes_guarded alice_and_bob (mkRequest [])
                (POST_admin_role "bob" 1)) as [Hanon _].
    apply Hanon. reflexivity.
  - destruct (admin_routes_guarded alice_and_bob (with_session "bob")
                (POST_admin_role "bob" 1)) as [_ [Hplain _]].
    apply (Hplain (mkUserDict 2 "bob" (u_password_hash bob) false));
      reflexivity.
  - destruct (admin_routes_guarded alice_and_bob (with_session "alice")
                (POST_admin_role "bob" 1)) as [_ [_ Hadmin]].
    apply (Hadmin (mkUserDict 1 "alice" (u_password_hash alice) true));
      reflexivity.
Defined.

Lemma create_user_conflict_witness :
  (exists u, In u (users alice_and_bob) /\ u_username u = "bob")
  /\ create_user "bob" "pw7" true alice_and_bob
     = (Raised (mkHTTPException 400 "User already exists."), alice_and_bob).
Proof.
  assert (H : exists u, In u (users alice_and_bob) /\ u_username u = "bob").
  { exists bob. split; [simpl; auto | reflexivity]. }
  split; [exact H|].
  exact (create_user_conflict alice_and_bob "bob" "pw7" true H).
Defined.

Lemma update_login_event_timestamp_witness :
  (exists e, In e (events alice_and_bob) /\ e_id e = 1)
  /\ events (after (update_login_event 1 "bob" "2024-01-05T10:30:00")
                   alice_and_bob)
     = [mkLoginEvent 1 "bob" "2024-01-05 10:30:00"]
  /\ update_login_event 1 "bob" "2024-01-05T10:30:00" alice_and_bob
     = update_login_event 1 "bob" "2024-01-05 10:30:00" alice_and_bob
  /\ update_login_event 1 "bob" "not-a-date" alice_and_bob
     = (Raised (mkHTTPException 400 "Invalid timestamp format."),
        alice_and_bob).
Proof.
  assert (H : exists e, In e (events alice_and_bob) /\ e_id e = 1).
  { eexists. split; [left; reflexivity | reflexivity]. }
  destruct (update_login_event_timestamp alice_and_bob 1 "bob" H)
    as [Hsame [Hstored Herr]].
  split; [exact H|]. split; [|split; [exact Hsame | exact Herr]].
  unfold after. rewrite Hstored. reflexivity.
Defined.

Lemma current_user_resolution_witness :
  current_user (run scenario (fresh_db "2024-01-01 09:00:00")) (mkRequest [])
  = None
  /\ current_user (run scenario (fresh_db "2024-01-01 09:00:00"))
                  (with_session "")
     = get_user (run scenario (fresh_db "2024-01-01 09:00:00")) ""
  /\ current_user (run scenario (fresh_db "2024-01-01 09:00:00"))
                  (with_session "zoe")
     = get_user (run scenario (fresh_db "2024-01-01 09:00:00")) "zoe"
  /\ current_user (run scenario (fresh_db "2024-01-01 09:00:00"))
                  (with_session "bob")
     = Some (user_dict bob).
Proof.
  split; [|split; [|split]].
  - exact (proj1 (current_user_resolution scenario "2024-01-01 09:00:00"
                    (mkRequest []))).
  - exact (proj1 (current_user_resolution scenario "2024-01-01 09:00:00"
                    (with_session ""))).
  - exact (proj1 (current_user_resolution scenario "2024-01-01 09:00:00"
                    (with_session "zoe"))).
  - assert (Hin : In bob (users (run scenario (fresh_db "2024-01-01 09:00:00")))).
    { vm_compute. right. left. reflexivity. }
    exact (proj2 (current_user_resolution scenario "2024-01-01 09:00:00"
                    (with_session "bob")) bob Hin eq_refl).
Defined.

Lemma set_admin_flag_missing_or_unchanged_witness :
  set_admin_flag "zoe" true alice_and_bob
  = (Raised (mkHTTPException 404 "User not found."), alice_and_bob)
  /\ set_admin_flag "alice" true alice_and_bob = (Returned tt, alice_and_bob)
  /\ set_admin_flag "bob" false alice_and_bob = (Returned tt, alice_and_bob).
Proof.
  split; [|split].
  - destruct (set_admin_flag_missing_or_unchanged alice_and_bob "zoe" true)
      as [Hmissing _].
    apply Hmissing. reflexivity.
  - destruct (set_admin_flag_missing_or_unchanged alice_and_bob "alice" true)
      as [_ Hsame].
    apply (Hsame (mkUserDict 1 "alice" (u_password_hash alice) true));
      reflexivity.
  - destruct (set_admin_flag_missing_or_unchanged alice_and_bob "bob" false)
      as [_ Hsame].
    apply (Hsame (mkUserDict 2 "bob" (u_password_hash bob) false));
      reflexivity.
Defined.

Lemma delete_login_event_idempotent_witness :
  fst (delete_login_event 7 alice_and_bob) = Returned tt
  /\ events (after (delete_login_event 7) alice_and_bob)
     = events alice_and_bob
  /\ delete_login_event 1 (after (delete_login_event 1) alice_and_bob)
     = (Returned tt, after (delete_login_event 1) alice_and_bob).
Proof.
  split; [|split].
  - exact (proj1 (delete_login_event_idempotent alice_and_bob 7)).
  - destruct (delete_login_event_idempotent alice_and_bob 7) as [_ [Habsent _]].
    apply Habsent. simpl. intros e [<-|[]]. simpl. lia.
  - exact (proj2 (proj2 (delete_login_event_idempotent alice_and_bob 1))).
Defined.

Lemma login_failures_indistinguishable_witness :
  get_user alice_and_bob "zoe" = None
  /\ get_user alice_and_bob "bob"
     = Some (mkUserDict 2 "bob" (u_password_hash bob) false)
  /\ login "zoe" "pw2" alice_and_bob = login "bob" "pw1" alice_and_bob
  /\ login "zoe" "pw2" alice_and_bob
     = (Returned (RedirectResponse "/login?error=Invalid%20credentials"
                    303 None), alice_and_bob).
Proof.
  assert (Hne : d_password_hash (mkUserDict 2 "bob" (u_password_hash bob) false)
                <> hash_password "pw1") by (vm_compute; discriminate).
  split; [reflexivity|]. split; [reflexivity|].
  exact (login_failures_indistinguishable alice_and_bob "zoe" "pw2" "bob" "pw1"
           (mkUserDict 2 "bob" (u_password_hash bob) false)
           eq_refl eq_refl Hne).
Defined.

(* ================================================================== *)
(** * Further properties of the stores and handlers                    *)
(* ================================================================== *)

(** ** Looking users up *)

Lemma find_snoc {A} (f : A -> bool) (l : list A) (x : A) :
  find f (l ++ [x])
  = match find f l with
    | Some y => Some y
    | None => if f x then Some x else None
    end.
Proof.
  induction l as [|y l IH]; simpl; [reflexivity|].
  destruct (f y); [reflexivity | exact IH].
Qed.

Lemma get_user_dict (db : Db) (username : string) :
  get_user db username
  = option_map user_dict
      (find (fun u => String.eqb (u_username u) username) (users db)).
Proof. apply get_user_find. Qed.

Lemma get_user_none_find (db : Db) (username : string) :
  get_user db username = None ->
  find (fun u => String.eqb (u_username u) username) (users db) = None.
Proof. rewrite get_user_dict. now destruct (find _ _). Qed.

(** [find] through an update that keeps what [cond'] looks at, on rows the
    update leaves alone or not. *)
Lemma find_update_where (cond cond' : User -> bool) (set : User -> User)
      (us : list User) :
  (forall u, cond' (set u) = cond' u) ->
  find cond' (update_where cond set us)
  = option_map (fun u => if cond u then set u else u) (find cond' us).
Proof.
  intro Hkeep. unfold update_where.
  induction us as [|u us IH]; simpl; [reflexivity|].
  destruct (cond u) eqn:Hc.
  - rewrite Hkeep. destruct (cond' u); simpl; [now rewrite Hc | exact IH].
  - destruct (cond' u); simpl; [now rewrite Hc | exact IH].
Qed.

(** ** [create_user]: insertion and lookup *)

(** X1. When no row has the username, [create_user] returns normally and
    appends exactly one row, with an id no row had, the SHA-256 of the
    password and the flag asked for; [get_user] then finds that row under
    the username, and finds under every other name what it found
    before. *)
Theorem create_user_then_get_user :
  forall (db : Db) (username password : string) (is_admin : bool),
    get_user db username = None ->
    exists row,
      create_user username password is_admin db
      = (Returned tt, set_users db (users db ++ [row]))
      /\ ~ In (u_id row) (map u_id (users db))
      /\ u_created_at row = current_timestamp db
      /\ get_user (after (create_user username password is_admin) db) username
         = Some (mkUserDict (u_id row) username (hash_password password)
                            is_admin)
      /\ (forall other, other <> username ->
          get_user (after (create_user username password is_admin) db) other
          = get_user db other).
Proof.
  intros db username password is_admin Hfree.
  apply get_user_none_find in Hfree.
  exists (mkUser (next_id (map u_id (users db))) username
                 (hash_password password) is_admin (current_timestamp db)).
  assert (Hrun : create_user username password is_admin db
                 = (Returned tt,
                    set_users db
                      (users db ++ [mkUser (next_id (map u_id (users db)))
                                      username (hash_password password)
                                      is_admin (current_timestamp db)]))).
  { unfold create_user. proc. now rewrite (find_none_existsb _ _ Hfree). }
  unfold after. rewrite Hrun. cbn [snd u_id u_created_at].
  split; [reflexivity|]. split; [apply next_id_fresh|].
  split; [reflexivity|]. split.
  - rewrite get_user_dict. cbn [users set_users]. rewrite find_snoc, Hfree.
    cbn [u_username]. now rewrite String.eqb_refl.
  - intros other Hother. rewrite !get_user_dict. cbn [users set_users].
    rewrite find_snoc.
    destruct (find (fun u => String.eqb (u_username u) other) (users db));
      [reflexivity|].
    cbn [u_username]. apply not_eq_sym in Hother.
    apply String.eqb_neq in Hother. now rewrite Hother.
Qed.

Lemma create_user_then_get_user_witness :
  exists row,
    create_user "carol" "pw3" false alice_and_bob
    = (Returned tt, set_users alice_and_bob (users alice_and_bob ++ [row]))
    /\ get_user (after (create_user "carol" "pw3" false) alice_and_bob) "carol"
       = Some (mkUserDict (u_id row) "carol" (hash_password "pw3") false).
Proof.
  destruct (create_user_then_get_user alice_and_bob "carol" "pw3" false
              eq_refl) as [row [Hrun [_ [_ [Hget _]]]]].
  exists row. split; [exact Hrun | exact Hget].
Defined.

(** ** Registration, login and the session cookie *)

Lemma login_accepted (db : Db) (username password : string) (d : UserDict) :
  get_user db username = Some d ->
  d_password_hash d = hash_password password ->
  login username password db
  = ((if latin1 username
      then Returned (RedirectResponse "/" HTTP_303_SEE_OTHER
                       (Some (SESSION_COOKIE, username)))
      else Failed UnicodeEncodeError),
     after (record_login_event username) db).
Proof.
  intros Hd Hhash. unfold login, set_cookie. proc. rewrite Hd.
  apply String.eqb_eq in Hhash. rewrite Hhash. simpl.
  destruct (record_login_event username db) as [[[]|exc|exc] db'] eqn:Hrec;
    [destruct (latin1 username); reflexivity | |];
    unfold record_login_event, ensure_login_events_table in Hrec; proc;
    discriminate Hrec.
Qed.

Lemma record_login_event_events (db : Db) (username : string) :
  events (after (record_login_event username) db)
  = events db ++ [mkLoginEvent (next_id (map e_id (events db))) username
                               (current_timestamp db)]
  /\ users (after (record_login_event username) db) = users db
  /\ current_timestamp (after (record_login_event username) db)
     = current_timestamp db.
Proof.
  unfold after, record_login_event, ensure_login_events_table, events. proc.
  destruct db as [us [es|] now]; simpl; repeat split.
Qed.

Lemma current_user_with_session (db : Db) (value : string) :
  current_user db (with_session value)
  = if truthy value then get_user db value else None.
Proof. reflexivity. Qed.



(** X3. What a successful login hands out is honoured afterwards.  When
    [login], given a username that is not empty (the form refuses an
    empty one), returns a redirect that sets a cookie, the cookie names
    the session cookie and carries the username, the username has no
    character above U+00FF, the user existed, and a request with that
    cookie resolves to the user who logged in. *)
Theorem login_cookie_resolves :
  forall (db db' : Db) (username password url : string) (status : Z)
         (cookie : string * string),
    username <> "" ->
    login username password db
    = (Returned (RedirectResponse url status (Some cookie)), db') ->
    cookie = (SESSION_COOKIE, username)
    /\ latin1 username = true
    /\ get_user db username <> None
    /\ current_user db' (mkRequest [cookie]) = get_user db username.
Proof.
  intros db db' username password url status cookie Hname Hlogin.
  destruct (get_user db username) as [d|] eqn:Hd.
  - destruct (String.eqb_spec (d_password_hash d) (hash_password password))
      as [Hhash|Hhash].
    + rewrite (login_accepted db username password d Hd Hhash) in Hlogin.
      destruct (latin1 username); [|discriminate Hlogin].
      injection Hlogin as _ _ Hcookie Hdb. subst cookie db'.
      destruct (record_login_event_events db username) as [_ [Husers _]].
      split; [reflexivity|]. split; [reflexivity|]. split; [discriminate|].
      fold (with_session username). rewrite current_user_with_session.
      rewrite truthy_nonempty by exact Hname.
      rewrite !get_user_dict, Husers, <- get_user_dict. exact Hd.
    + rewrite login_rejected in Hlogin by (rewrite Hd; exact Hhash).
      discriminate Hlogin.
  - rewrite login_rejected in Hlogin by now rewrite Hd.
    discriminate Hlogin.
Qed.

Lemma login_cookie_resolves_witness :
  current_user (after (login "bob" "pw2") alice_and_bob)
               (mkRequest [(SESSION_COOKIE, "bob")])
  = get_user alice_and_bob "bob".
Proof.
  assert (Hname : "bob" <> "") by discriminate.
  assert (Hlogin : login "bob" "pw2" alice_and_bob
                   = (Returned (RedirectResponse "/" 303
                                  (Some (SESSION_COOKIE, "bob"))),
                      after (login "bob" "pw2") alice_and_bob))
    by (vm_compute; reflexivity).
  exact (proj2 (proj2 (proj2 (login_cookie_resolves _ _ _ _ _ _ _
                                Hname Hlogin)))).
Defined.

(** ** [set_admin_flag] when it goes through *)

Lemma get_user_some_find (db : Db) (username : string) (d : UserDict) :
  get_user db username = Some d ->
  exists r, find (fun u => String.eqb (u_username u) username) (users db)
            = Some r /\ d = user_dict r /\ u_username r = username.
Proof.
  rewrite get_user_dict.
  destruct (find _ (users db)) as [r|] eqn:Hfind; [|discriminate].
  intro H. inversion H. exists r. repeat split.
  now apply find_username_in in Hfind.
Qed.

(** X4. When the user exists and the call is not the demotion of the only
    admin, [set_admin_flag] returns normally; afterwards [get_user] shows
    the user with the new flag and the same id and password hash, every
    other username resolves as before, no row changed its id, username,
    password hash or creation time, and the login events are
    untouched. *)
Theorem set_admin_flag_takes_effect :
  forall (db : Db) (username : string) (is_admin : bool) (d : UserDict),
    get_user db username = Some d ->
    (d_is_admin d = true -> is_admin = false -> (2 <= admin_count db)%nat) ->
    fst (set_admin_flag username is_admin db) = Returned tt
    /\ get_user (after (set_admin_flag username is_admin) db) username
       = Some (mkUserDict (d_id d) username (d_password_hash d) is_admin)
    /\ (forall other, other <> username ->
        get_user (after (set_admin_flag username is_admin) db) other
        = get_user db other)
    /\ map (fun u => (u_id u, u_username u, u_password_hash u, u_created_at u))
           (users (after (set_admin_flag username is_admin) db))
       = map (fun u => (u_id u, u_username u, u_password_hash u, u_created_at u))
             (users db)
    /\ login_events (after (set_admin_flag username is_admin) db)
       = login_events db.
Proof.
  intros db username is_admin d Hd Hguard.
  destruct (get_user_some_find db username d Hd) as [r [Hfind [-> Hname]]].
  cbn [user_dict d_id d_password_hash d_is_admin] in *.
  unfold after. rewrite set_admin_flag_result, Hfind.
  assert (Hg : u_is_admin r && negb is_admin && (admin_count db <=? 1)%nat
               = false).
  { destruct (u_is_admin r), is_admin; simpl; try reflexivity.
    apply Nat.leb_gt. specialize (Hguard eq_refl eq_refl). lia. }
  rewrite Hg.
  destruct (Bool.eqb (u_is_admin r) is_admin) eqn:Hsame; cbn [fst snd].
  - apply Bool.eqb_prop in Hsame. subst is_admin.
    split; [reflexivity|]. split; [|auto].
    rewrite Hd. unfold user_dict. now rewrite Hname.
  - split; [reflexivity|]. split; [|split; [|split]].
    + rewrite get_user_dict. cbn [users set_users].
      rewrite find_update_where by reflexivity. rewrite Hfind.
      cbn [option_map]. rewrite Hname, String.eqb_refl.
      reflexivity.
    + intros other Hother. rewrite !get_user_dict. cbn [users set_users].
      rewrite find_update_where by reflexivity.
      destruct (find (fun u => String.eqb (u_username u) other) (users db))
        as [x|] eqn:Hx; [|reflexivity].
      apply find_username_in in Hx. destruct Hx as [_ Hx].
      cbn [option_map]. rewrite Hx.
      apply String.eqb_neq in Hother. now rewrite Hother.
    + cbn [users set_users]. now apply update_where_keeps.
    + reflexivity.
Qed.

Lemma set_admin_flag_takes_effect_witness :
  fst (set_admin_flag "bob" true alice_and_bob) = Returned tt
  /\ get_user (after (set_admin_flag "bob" true) alice_and_bob) "bob"
     = Some (mkUserDict 2 "bob" (u_password_hash bob) true).
Proof.
  destruct (set_admin_flag_takes_effect alice_and_bob "bob" true
              (user_dict bob) eq_refl) as [Hret [Hget _]].
  - simpl. discriminate.
  - split; [exact Hret | exact Hget].
Defined.

(** X5. [set_admin_flag] is idempotent: calling it again with the same
    arguments gives the same outcome as the first call (normal return, or
    the same exception) and leaves the database the first call
    produced. *)
Theorem set_admin_flag_twice :
  forall (db : Db) (username : string) (is_admin : bool),
    set_admin_flag username is_admin
                   (after (set_admin_flag username is_admin) db)
    = (fst (set_admin_flag username is_admin db),
       after (set_admin_flag username is_admin) db).
Proof.
  intros db username is_admin. unfold after.
  rewrite (set_admin_flag_result db).
  destruct (find (fun u => String.eqb (u_username u) username) (users db))
    as [r|] eqn:Hfind; cbn [fst snd].
  - destruct (u_is_admin r && negb is_admin && (admin_count db <=? 1)%nat)
      eqn:Hguard; cbn [fst snd].
    + now rewrite set_admin_flag_result, Hfind, Hguard.
    + destruct (Bool.eqb (u_is_admin r) is_admin) eqn:Hsame; cbn [fst snd].
      * now rewrite set_admin_flag_result, Hfind, Hguard, Hsame.
      * rewrite set_admin_flag_result. cbn [users set_users].
        rewrite find_update_where by reflexivity. rewrite Hfind.
        cbn [option_map]. apply find_username_in in Hfind as Hr.
        destruct Hr as [_ Hr]. rewrite Hr, String.eqb_refl.
        cbn [u_is_admin]. rewrite andb_negb_r. cbn [andb].
        now rewrite Bool.eqb_reflx.
  - now rewrite set_admin_flag_result, Hfind.
Qed.

(** ** [update_user_record]: renaming, and its refusals *)

Lemma NoDup_map_eq {A B} (f : A -> B) (l : list A) (x y : A) :
  NoDup (map f l) -> In x l -> In y l -> f x = f y -> x = y.
Proof.
  induction l as [|a l IH]; simpl; intros Hnd Hx Hy Hf; [contradiction|].
  inversion Hnd as [|b l' Hnotin Hnd']; subst.
  destruct Hx as [->|Hx], Hy as [->|Hy]; auto.
  - exfalso. apply Hnotin. rewrite Hf. now apply in_map.
  - exfalso. apply Hnotin. rewrite <- Hf. now apply in_map.
Qed.

Lemma no_collision (us : list User) (user_id : Z) (username : string) :
  (forall x, In x us -> u_username x = username -> u_id x = user_id) <->
  existsb (fun u => negb (u_id u =? user_id) && String.eqb (u_username u) username)
          us = false.
Proof.
  split.
  - intro H. destruct (existsb _ us) eqn:He; [|reflexivity].
    apply existsb_exists in He. destruct He as [x [Hin Hx]].
    apply andb_true_iff in Hx. destruct Hx as [Hid Hname].
    apply String.eqb_eq in Hname. apply negb_true_iff, Z.eqb_neq in Hid.
    now specialize (H x Hin Hname).
  - intros H x Hin Hname. apply (existsb_false _ _ H) in Hin.
    apply andb_false_iff in Hin. destruct Hin as [Hin|Hin].
    + now apply negb_false_iff, Z.eqb_eq in Hin.
    + apply String.eqb_neq in Hin. contradiction.
Qed.

Lemma not_a_demotion (current_admin is_admin : bool) :
  (current_admin = true -> is_admin = true) ->
  current_admin && negb is_admin = false.
Proof.
  destruct current_admin, is_admin; simpl; intro H; try reflexivity.
  now specialize (H eq_refl).
Qed.

Section Rename.

Context (user_id : Z) (username : string) (set : User -> User).
Hypothesis set_name : forall u, u_username (set u) = username.

(** Under the new name the renamed row is found. *)
Lemma find_renamed (us : list User) (r : User) :
  find (fun u => u_id u =? user_id) us = Some r ->
  (forall x, In x us -> u_username x = username -> u_id x = user_id) ->
  find (fun u => String.eqb (u_username u) username)
       (update_where (fun u => u_id u =? user_id) set us)
  = Some (set r).
Proof.
  unfold update_where.
  induction us as [|u us IH]; simpl; intros Hfind Hfree; [discriminate|].
  destruct (Z.eqb_spec (u_id u) user_id) as [Hid|Hid].
  - inversion Hfind; subst r. now rewrite set_name, String.eqb_refl.
  - destruct (String.eqb_spec (u_username u) username) as [Hname|Hname].
    + exfalso. apply Hid, Hfree; auto.
    + apply IH; auto.
Qed.

(** Under a name that is neither the old nor the new one, nothing
    changes. *)
Lemma find_beside_rename (us : list User) (r : User) (other : string) :
  NoDup (map u_id us) ->
  find (fun u => u_id u =? user_id) us = Some r ->
  other <> username -> other <> u_username r ->
  find (fun u => String.eqb (u_username u) other)
       (update_where (fun u => u_id u =? user_id) set us)
  = find (fun u => String.eqb (u_username u) other) us.
Proof.
  intros Hnd Hfind Hnew Hold. revert Hnd Hfind.
  induction us as [|u us IH]; simpl; intros Hnd Hfind; [reflexivity|].
  inversion Hnd as [|i l Hnotin Hnd']; subst.
  fold (update_where (fun v => u_id v =? user_id) set us).
  destruct (Z.eqb_spec (u_id u) user_id) as [Hid|Hid].
  - inversion Hfind; subst r. rewrite set_name.
    apply not_eq_sym, String.eqb_neq in Hnew, Hold. rewrite Hnew, Hold.
    rewrite update_where_no_match; [reflexivity|].
    intros v Hv. apply Z.eqb_neq. intro E. apply Hnotin.
    rewrite Hid, <- E. now apply in_map.
  - destruct (String.eqb (u_username u) other); [reflexivity|].
    now apply IH.
Qed.

(** Under the old name, when it differs from the new one, nobody is
    found any more. *)
Lemma find_old_name (us : list User) (r : User) :
  NoDup (map u_username us) ->
  find (fun u => u_id u =? user_id) us = Some r ->
  u_username r <> username ->
  find (fun u => String.eqb (u_username u) (u_username r))
       (update_where (fun u => u_id u =? user_id) set us)
  = None.
Proof.
  intros Hnd Hfind Hold.
  apply find_id_in in Hfind. destruct Hfind as [Hr Hrid].
  destruct (find _ (update_where _ set us)) as [y|] eqn:Hy; [|reflexivity].
  exfalso. apply find_some in Hy. destruct Hy as [Hin Hname].
  apply String.eqb_eq in Hname.
  unfold update_where in Hin. apply in_map_iff in Hin.
  destruct Hin as [x [Hx Hin]].
  destruct (Z.eqb_spec (u_id x) user_id) as [Hid|Hid]; subst y.
  - rewrite set_name in Hname. congruence.
  - apply Hid. rewrite (NoDup_map_eq u_username us x r Hnd Hin Hr Hname).
    exact Hrid.
Qed.

End Rename.

(** X6. Under the schema, when the row of the id exists, the call does
    not take the admin flag from an admin and no other row has the new
    username, [update_user_record] returns normally.  Afterwards the new
    username resolves to that id with the new flag, and with the hash of
    the new password if a non-empty one was given, else the old hash; the
    old username, if it differs, resolves to nobody; every other username
    resolves as before; ids and creation times are those of before; the
    login events are untouched (they keep the old username). *)
Theorem update_user_record_takes_effect :
  forall (db : Db) (user_id : Z) (username : string) (is_admin : bool)
         (new_password : option string) (r : User),
    users_schema db ->
    find (fun u => u_id u =? user_id) (users db) = Some r ->
    (u_is_admin r = true -> is_admin = true) ->
    (forall x, In x (users db) -> u_username x = username ->
               u_id x = user_id) ->
    fst (update_user_record user_id username is_admin new_password db)
    = Returned tt
    /\ get_user (after (update_user_record user_id username is_admin
                                           new_password) db) username
       = Some (mkUserDict user_id username
                 (match new_password with
                  | Some p => if truthy p then hash_password p
                              else u_password_hash r
                  | None => u_password_hash r
                  end)
                 is_admin)
    /\ (u_username r <> username ->
        get_user (after (update_user_record user_id username is_admin
                                            new_password) db) (u_username r)
        = None)
    /\ (forall other, other <> username -> other <> u_username r ->
        get_user (after (update_user_record user_id username is_admin
                                            new_password) db) other
        = get_user db other)
    /\ map (fun u => (u_id u, u_created_at u))
           (users (after (update_user_record user_id username is_admin
                                             new_password) db))
       = map (fun u => (u_id u, u_created_at u)) (users db)
    /\ login_events (after (update_user_record user_id username is_admin
                                               new_password) db)
       = login_events db.
Proof.
  intros db user_id username is_admin new_password r [Hid Hname] Hfind
         Hguard Hfree.
  pose proof (not_a_demotion (u_is_admin r) is_admin Hguard) as Hg.
  unfold after. rewrite update_user_record_result, Hfind, Hg.
  rewrite (proj1 (no_collision (users db) user_id username) Hfree).
  cbn [fst snd users set_users login_events].
  split; [reflexivity|]. split; [|split; [|split; [|split]]].
  - rewrite get_user_dict. cbn [users set_users].
    match goal with |- context [update_where _ ?set (users db)] =>
      rewrite (find_renamed user_id username set (fun u => eq_refl)
                 (users db) r Hfind Hfree) end.
    cbn [option_map]. unfold user_dict. cbn.
    apply find_id_in in Hfind. destruct Hfind as [_ ->].
    destruct new_password as [p|]; [destruct (truthy p)|]; reflexivity.
  - intro Hold. rewrite get_user_dict. cbn [users set_users].
    match goal with |- context [update_where _ ?set (users db)] =>
      now rewrite (find_old_name user_id username set (fun u => eq_refl)
                     (users db) r Hname Hfind Hold) end.
  - intros other Hnew Hold. rewrite !get_user_dict. cbn [users set_users].
    match goal with |- context [update_where _ ?set (users db)] =>
      now rewrite (find_beside_rename user_id username set (fun u => eq_refl)
                     (users db) r other Hid Hfind Hnew Hold) end.
  - now apply update_where_keeps.
  - reflexivity.
Qed.

Lemma update_user_record_takes_effect_witness :
  fst (update_user_record 2 "robert" true (Some "pw5") alice_and_bob)
  = Returned tt
  /\ get_user (after (update_user_record 2 "robert" true (Some "pw5"))
                     alice_and_bob) "robert"
     = Some (mkUserDict 2 "robert" (hash_password "pw5") true)
  /\ get_user (after (update_user_record 2 "robert" true (Some "pw5"))
                     alice_and_bob) "bob"
     = None.
Proof.
  destruct (update_user_record_takes_effect alice_and_bob 2 "robert" true
              (Some "pw5") bob alice_and_bob_schema eq_refl)
    as [Hret [Hnew [Hold _]]].
  - reflexivity.
  - simpl. intros x [<-|[<-|[]]]; simpl; discriminate.
  - split; [exact Hret|]. split; [|apply Hold; discriminate].
    rewrite Hnew. vm_compute. reflexivity.
Defined.

(** X7. The refusals of [update_user_record], in the order the code makes
    them.  An id no row has: 404 "User not found.", whatever the other
    arguments.  A row found that is an admin, and an edit that clears
    the flag: [ValueError], whatever the number of admins and whatever
    the new username.  Any other edit of a found row, while another row
    has the new username: 400 "Username already exists.".  All three
    leave the database as it was.  Under the schema, giving a row its own
    current username is no conflict. *)
Theorem update_user_record_refusals :
  forall (db : Db) (user_id : Z) (username : string) (is_admin : bool)
         (new_password : option string),
    (find (fun u => u_id u =? user_id) (users db) = None ->
     update_user_record user_id username is_admin new_password db
     = (Raised (mkHTTPException 404 "User not found."), db))
    /\ (forall r,
        find (fun u => u_id u =? user_id) (users db) = Some r ->
        u_is_admin r = true -> is_admin = false ->
        update_user_record user_id username is_admin new_password db
        = (Failed ValueError, db))
    /\ (forall r x,
        find (fun u => u_id u =? user_id) (users db) = Some r ->
        (u_is_admin r = true -> is_admin = true) ->
        In x (users db) -> u_id x <> user_id -> u_username x = username ->
        update_user_record user_id username is_admin new_password db
        = (Raised (mkHTTPException 400 "Username already exists."), db))
    /\ (forall r,
        users_schema db ->
        find (fun u => u_id u =? user_id) (users db) = Some r ->
        (u_is_admin r = true -> is_admin = true) ->
        username = u_username r ->
        fst (update_user_record user_id username is_admin new_password db)
        = Returned tt).
Proof.
  intros db user_id username is_admin new_password.
  rewrite update_user_record_result. split; [|split; [|split]].
  - intros ->. reflexivity.
  - intros r Hfind Hadmin ->. now rewrite Hfind, Hadmin.
  - intros r x Hfind Hguard Hin Hid Hname.
    rewrite Hfind, (not_a_demotion _ _ Hguard).
    assert (Hc : existsb (fun u => negb (u_id u =? user_id)
                                   && String.eqb (u_username u) username)
                         (users db) = true).
    { apply existsb_exists. exists x. split; [exact Hin|].
      apply andb_true_iff. split.
      - now apply negb_true_iff, Z.eqb_neq.
      - now apply String.eqb_eq. }
    now rewrite Hc.
  - intros r [Hids Hnames] Hfind Hguard ->.
    rewrite Hfind, (not_a_demotion _ _ Hguard).
    rewrite (proj1 (no_collision (users db) user_id (u_username r)));
      [reflexivity|].
    intros x Hin Hname. apply find_id_in in Hfind.
    destruct Hfind as [Hr Hrid].
    now rewrite (NoDup_map_eq u_username (users db) x r Hnames Hin Hr Hname).
Qed.

Lemma update_user_record_refusals_witness :
  update_user_record 9 "zoe" true None alice_and_bob
  = (Raised (mkHTTPException 404 "User not found."), alice_and_bob)
  /\ update_user_record 1 "alice" false (Some "pw6") alice_and_bob
     = (Failed ValueError, alice_and_bob)
  /\ update_user_record 2 "alice" false None alice_and_bob
     = (Raised (mkHTTPException 400 "Username already exists."),
        alice_and_bob)
  /\ fst (update_user_record 2 "bob" true None alice_and_bob) = Returned tt.
Proof.
  split; [|split; [|split]].
  - apply (proj1 (update_user_record_refusals alice_and_bob 9 "zoe" true None)).
    reflexivity.
  - destruct (update_user_record_refusals alice_and_bob 1 "alice" false
                (Some "pw6")) as [_ [Hdemote _]].
    apply (Hdemote alice); reflexivity.
  - destruct (update_user_record_refusals alice_and_bob 2 "alice" false None)
      as [_ [_ [Hconflict _]]].
    apply (Hconflict bob alice); try reflexivity.
    + simpl. discriminate.
    + simpl. auto.
    + simpl. lia.
  - destruct (update_user_record_refusals alice_and_bob 2 "bob" true None)
      as [_ [_ [_ Hself]]].
    apply (Hself bob); try reflexivity.
    exact alice_and_bob_schema.
Defined.

(** ** The handlers that redirect back with a message *)

Lemma or_redirect_cases (operation : M unit) (back success : string) (db : Db) :
  or_redirect operation back success db
  = match operation db with
    | (Returned _, db') =>
        (Returned (RedirectResponse (back ++ "?success=" ++ success)%string
                     HTTP_303_SEE_OTHER None), db')
    | (Raised exc, db') =>
        (Returned (RedirectResponse
                     (back ++ "?error=" ++ quote (detail exc))%string
                     HTTP_303_SEE_OTHER None), db')
    | (Failed exc, db') => (Failed exc, db')
    end.
Proof.
  unfold or_redirect. proc.
  destruct (operation db) as [[[]|exc|exc] db']; reflexivity.
Qed.

Lemma serve_post_as_admin (db : Db) (request : Request) (u : UserDict) :
  current_user db request = Some u -> d_is_admin u = true ->
  (forall username is_admin,
     update_admin_role request username is_admin db
     = or_redirect (set_admin_flag username (negb (is_admin =? 0))) "/admin"
         (quote ("Updated admin access for " ++ username ++ ".")) db)
  /\ (forall user_id username is_admin new_password,
        admin_edit_user request user_id username is_admin new_password db
        = or_redirect
            (update_user_record user_id username (negb (is_admin =? 0))
               (if truthy (strip new_password) then Some (strip new_password)
                else None))
            "/admin/editor" "User%20updated" db)
  /\ (forall event_id username logged_in_at,
        admin_edit_login_event request event_id username logged_in_at db
        = or_redirect (update_login_event event_id username logged_in_at)
            "/admin/editor" "Login%20event%20updated" db)
  /\ (forall event_id,
        admin_delete_login_event request event_id db
        = or_redirect (delete_login_event event_id)
            "/admin/editor" "Login%20event%20deleted" db).
Proof.
  intros Hu Hflag. repeat split; intros; guard_case Hu; rewrite Hflag;
    reflexivity.
Qed.



(** ** The login event store *)

Lemma ensure_table_events (db : Db) :
  events (after ensure_login_events_table db) = events db
  /\ users (after ensure_login_events_table db) = users db
  /\ current_timestamp (after ensure_login_events_table db)
     = current_timestamp db.
Proof.
  unfold after, ensure_login_events_table, events. proc.
  destruct db as [us [es|] now]; repeat split.
Qed.

Lemma update_login_event_result (db : Db) (event_id : Z)
      (username logged_in_at : string) :
  update_login_event event_id username logged_in_at db
  = if negb (existsb (fun e => e_id e =? event_id) (events db)) then
      (Raised (mkHTTPException 404 "Login event not found."),
       after ensure_login_events_table db)
    else
      match parse_timestamp logged_in_at with
      | Returned ts =>
          (Returned tt,
           set_login_events db
             (update_where (fun e => e_id e =? event_id)
                (fun e => mkLoginEvent (e_id e) username ts) (events db)))
      | Raised exc => (Raised exc, after ensure_login_events_table db)
      | Failed exc => (Failed exc, after ensure_login_events_table db)
      end.
Proof.
  unfold update_login_event, after, ensure_login_events_table, events. proc.
  destruct db as [us [es|] now]; simpl.
  - destruct (existsb _ es); simpl; [|reflexivity].
    destruct (parse_timestamp logged_in_at); reflexivity.
  - reflexivity.
Qed.

Lemma delete_login_event_result (db : Db) (event_id : Z) :
  delete_login_event event_id db
  = (Returned tt,
     set_login_events db
       (delete_where (fun e => e_id e =? event_id) (events db))).
Proof.
  unfold delete_login_event, ensure_login_events_table, events. proc.
  destruct db as [us [es|] now]; reflexivity.
Qed.

(** X9. [update_login_event] looks for the id before it reads the
    timestamp: when no event has the id it raises 404 "Login event not
    found." whatever the timestamp, valid or not, and the events are
    unchanged.  In every case the events keep their ids and their order,
    every event of another id is left exactly as it was, and the users
    are untouched. *)
Theorem update_login_event_only_its_id :
  forall (db : Db) (event_id : Z) (username logged_in_at : string),
    ((forall e, In e (events db) -> e_id e <> event_id) ->
     fst (update_login_event event_id username logged_in_at db)
     = Raised (mkHTTPException 404 "Login event not found.")
     /\ events (after (update_login_event event_id username logged_in_at) db)
        = events db)
    /\ map e_id (events (after (update_login_event event_id username
                                                   logged_in_at) db))
       = map e_id (events db)
    /\ (forall e, In e (events db) -> e_id e <> event_id ->
        In e (events (after (update_login_event event_id username
                                                logged_in_at) db)))
    /\ users (after (update_login_event event_id username logged_in_at) db)
       = users db.
Proof.
  intros db event_id username logged_in_at.
  destruct (ensure_table_events db) as [Hev [Hus _]].
  unfold after. rewrite update_login_event_result. unfold after in *.
  split; [|split; [|split]].
  - intro Habsent.
    assert (Hnone : existsb (fun e => e_id e =? event_id) (events db) = false).
    { destruct (existsb _ (events db)) eqn:He; [|reflexivity].
      apply existsb_exists in He. destruct He as [e [Hin He]].
      apply Z.eqb_eq in He. now apply Habsent in Hin. }
    rewrite Hnone. cbn [negb fst snd]. split; [reflexivity | exact Hev].
  - destruct (negb _); cbn [snd]; [now rewrite Hev|].
    destruct (parse_timestamp logged_in_at); cbn [snd];
      [|now rewrite Hev|now rewrite Hev].
    unfold events at 1. cbn [login_events set_login_events].
    now apply update_where_keeps.
  - intros e Hin Hid.
    destruct (negb _); cbn [snd]; [now rewrite Hev|].
    destruct (parse_timestamp logged_in_at); cbn [snd];
      [|now rewrite Hev|now rewrite Hev].
    unfold events at 1. cbn [login_events set_login_events].
    unfold update_where. apply in_map_iff. exists e. split; [|exact Hin].
    apply Z.eqb_neq in Hid. now rewrite Hid.
  - destruct (negb _); cbn [snd]; [exact Hus|].
    destruct (parse_timestamp logged_in_at); cbn [snd];
      [reflexivity | exact Hus | exact Hus].
Qed.

Lemma update_login_event_only_its_id_witness :
  fst (update_login_event 7 "bob" "not-a-date" alice_and_bob)
  = Raised (mkHTTPException 404 "Login event not found.")
  /\ events (after (update_login_event 7 "bob" "not-a-date") alice_and_bob)
     = events alice_and_bob.
Proof.
  apply (proj1 (update_login_event_only_its_id alice_and_bob 7 "bob"
                  "not-a-date")).
  simpl. intros e [<-|[]]. simpl. lia.
Defined.

Lemma delete_unique_length (es : list LoginEvent) (event_id : Z) :
  NoDup (map e_id es) -> In event_id (map e_id es) ->
  S (List.length (delete_where (fun e => e_id e =? event_id) es))
  = List.length es.
Proof.
  unfold delete_where.
  induction es as [|e es IH]; simpl; intros Hnd Hin; [contradiction|].
  inversion Hnd as [|i l Hnotin Hnd']; subst.
  destruct (Z.eqb_spec (e_id e) event_id) as [Heq|Hne]; simpl.
  - f_equal.
    fold (delete_where (fun x => e_id x =? event_id) es).
    rewrite delete_where_absent; [reflexivity|].
    intros x Hx E. apply Hnotin. rewrite Heq, <- E. now apply in_map.
  - f_equal. apply IH; [exact Hnd'|].
    destruct Hin as [Hin|Hin]; [contradiction | exact Hin].
Qed.

(** X10. After [delete_login_event] the events are exactly those of
    before whose id differs, in the same order as a part of the old list;
    when ids are unique and the id was present, there is exactly one
    event fewer.  An update of the deleted id then raises 404.  The users
    are untouched. *)
Theorem delete_login_event_removes :
  forall (db : Db) (event_id : Z),
    (forall e, In e (events (after (delete_login_event event_id) db))
               <-> In e (events db) /\ e_id e <> event_id)
    /\ (NoDup (map e_id (events db)) -> In event_id (map e_id (events db)) ->
        S (List.length (events (after (delete_login_event event_id) db)))
        = List.length (events db))
    /\ (forall username logged_in_at,
        fst (update_login_event event_id username logged_in_at
               (after (delete_login_event event_id) db))
        = Raised (mkHTTPException 404 "Login event not found."))
    /\ users (after (delete_login_event event_id) db) = users db.
Proof.
  intros db event_id. unfold after. rewrite delete_login_event_result.
  cbn [snd]. unfold events at 1 3 5. cbn [login_events set_login_events users].
  assert (Hin : forall e,
             In e (delete_where (fun x => e_id x =? event_id) (events db))
             <-> In e (events db) /\ e_id e <> event_id).
  { intro e. unfold delete_where. rewrite filter_In.
    rewrite negb_true_iff, Z.eqb_neq. reflexivity. }
  split; [exact Hin|]. split; [apply delete_unique_length|].
  split; [|reflexivity].
  intros username logged_in_at. rewrite update_login_event_result.
  unfold events at 1. cbn [login_events set_login_events].
  assert (Hnone : existsb (fun e => e_id e =? event_id)
                    (delete_where (fun x => e_id x =? event_id) (events db))
                  = false).
  { destruct (existsb _ _) eqn:He; [|reflexivity].
    apply existsb_exists in He. destruct He as [e [He Hid]].
    apply Hin in He. apply Z.eqb_eq in Hid. now destruct He. }
  now rewrite Hnone.
Qed.

Lemma delete_login_event_removes_witness :
  S (List.length (events (after (delete_login_event 1) alice_and_bob)))
  = List.length (events alice_and_bob).
Proof.
  destruct (delete_login_event_removes alice_and_bob 1) as [_ [Hlen _]].
  apply Hlen.
  - simpl. repeat constructor. intros [].
  - simpl. auto.
Defined.

(** ** The listings *)

Section OrderBy.

Context {A : Type} (leb : A -> A -> bool).
Hypothesis leb_total : forall a b, leb a b = true \/ leb b a = true.

Lemma insert_desc_perm (x : A) (l : list A) :
  Permutation (insert_desc leb x l) (x :: l).
Proof.
  induction l as [|y l IH]; simpl; [reflexivity|].
  destruct (leb x y && negb (leb y x)); [|reflexivity].
  rewrite IH. apply perm_swap.
Qed.

Lemma order_by_desc_perm (l : list A) : Permutation (order_by_desc leb l) l.
Proof.
  unfold order_by_desc. induction l as [|x l IH]; simpl; [reflexivity|].
  rewrite insert_desc_perm. now constructor.
Qed.

Lemma insert_desc_hd (x y : A) (l : list A) :
  descending leb y x -> HdRel (descending leb) y l ->
  HdRel (descending leb) y (insert_desc leb x l).
Proof.
  intros Hyx Hhd. destruct l as [|z l]; simpl; [now constructor|].
  destruct (leb x z && negb (leb z x)); constructor; auto.
  now inversion Hhd.
Qed.

Lemma insert_desc_sorted (x : A) (l : list A) :
  Sorted (descending leb) l -> Sorted (descending leb) (insert_desc leb x l).
Proof.
  induction l as [|y l IH]; simpl; intro Hs; [repeat constructor|].
  inversion Hs as [|y' l' Hs' Hhd]; subst.
  destruct (leb x y && negb (leb y x)) eqn:Hlt.
  - apply andb_true_iff in Hlt. destruct Hlt as [Hxy _].
    constructor; [now apply IH|]. now apply insert_desc_hd.
  - constructor; [exact Hs|]. constructor. unfold descending.
    apply andb_false_iff in Hlt. destruct Hlt as [Hxy|Hyx].
    + destruct (leb_total x y) as [H|H]; [congruence | exact H].
    + now apply negb_false_iff in Hyx.
Qed.

Lemma order_by_desc_sorted (l : list A) :
  Sorted (descending leb) (order_by_desc leb l).
Proof.
  unfold order_by_desc. induction l as [|x l IH]; simpl; [constructor|].
  now apply insert_desc_sorted.
Qed.

End OrderBy.

Lemma Sorted_map {A B} (R : A -> A -> Prop) (S : B -> B -> Prop) (f : A -> B)
      (l : list A) :
  (forall a b, R a b -> S (f a) (f b)) ->
  Sorted R l -> Sorted S (map f l).
Proof.
  intros HRS. induction 1 as [|a l Hs IH Hhd]; simpl; constructor; auto.
  destruct Hhd; simpl; constructor; auto.
Qed.

Lemma Sorted_firstn {A} (R : A -> A -> Prop) (n : nat) (l : list A) :
  Sorted R l -> Sorted R (firstn n l).
Proof.
  revert l. induction n as [|n IH]; intros l Hs; simpl; [constructor|].
  destruct Hs as [|a l Hs Hhd]; [constructor|].
  constructor; [now apply IH|].
  destruct Hhd; destruct n; simpl; constructor; auto.
Qed.

Lemma Z_leb_total (a b : Z) : (a <=? b) = true \/ (b <=? a) = true.
Proof. rewrite !Z.leb_le. lia. Qed.

(** X11. [list_users] lists every user exactly once, as its username, admin
    flag and creation time, with creation times descending (newest
    first); [list_users_with_ids] lists every user exactly once with its
    id, ids descending. *)
Theorem list_users_complete_and_ordered :
  forall (db : Db),
    Permutation (list_users db)
                (map (fun u => (u_username u, u_is_admin u, u_created_at u))
                     (users db))
    /\ Sorted (fun a b => String.leb (snd b) (snd a) = true) (list_users db)
    /\ Permutation (list_users_with_ids db)
                   (map (fun u => (u_id u, u_username u, u_is_admin u,
                                   u_created_at u))
                        (users db))
    /\ Sorted (fun a b => fst (fst (fst b)) <= fst (fst (fst a)))
              (list_users_with_ids db).
Proof.
  intro db. unfold list_users, list_users_with_ids. repeat split.
  - apply Permutation_map, order_by_desc_perm.
  - eapply Sorted_map; [|apply order_by_desc_sorted].
    + intros a b H. exact H.
    + intros a b. apply String.leb_total.
  - apply Permutation_map, order_by_desc_perm.
  - eapply Sorted_map; [|apply order_by_desc_sorted].
    + intros a b H. unfold descending in H. cbn. now apply Z.leb_le.
    + intros a b. apply Z_leb_total.
Qed.

Lemma list_login_events_result (db : Db) (limit : Z) :
  list_login_events limit db
  = (Returned
       (firstn (Z.to_nat limit)
          (order_by_desc
             (fun a b => String.leb (e_logged_in_at a) (e_logged_in_at b))
             (events db))),
     after ensure_login_events_table db).
Proof.
  unfold list_login_events, after, ensure_login_events_table, events. proc.
  destruct db as [us [es|] now]; reflexivity.
Qed.

(** X12. For a limit that is not negative, [list_login_events] returns
    normally at most [limit] events, each one an event of the table,
    with login times descending (most recent first); when the table has
    no more than [limit] events it returns all of them, each once.  It
    changes neither the events nor the users. *)
Theorem list_login_events_bounded :
  forall (db : Db) (limit : Z),
    0 <= limit ->
    exists listed,
      fst (list_login_events limit db) = Returned listed
      /\ Z.of_nat (List.length listed) <= limit
      /\ (forall e, In e listed -> In e (events db))
      /\ Sorted (fun a b => String.leb (e_logged_in_at b) (e_logged_in_at a)
                            = true) listed
      /\ (Z.of_nat (List.length (events db)) <= limit ->
          Permutation listed (events db))
      /\ events (after (list_login_events limit) db) = events db
      /\ users (after (list_login_events limit) db) = users db.
Proof.
  intros db limit Hlimit. unfold after. rewrite list_login_events_result.
  cbn [fst snd]. eexists. split; [reflexivity|].
  set (sorted := order_by_desc
                   (fun a b => String.leb (e_logged_in_at a) (e_logged_in_at b))
                   (events db)).
  assert (Hperm : Permutation sorted (events db))
    by apply order_by_desc_perm.
  destruct (ensure_table_events db) as [Hev [Hus _]].
  repeat split.
  - rewrite length_firstn. lia.
  - intros e Hin. apply (Permutation_in _ Hperm).
    rewrite <- (firstn_skipn (Z.to_nat limit) sorted).
    apply in_or_app. now left.
  - apply Sorted_firstn. apply order_by_desc_sorted.
    intros a b. apply String.leb_total.
  - intro Hall. rewrite firstn_all2; [exact Hperm|].
    rewrite (Permutation_length Hperm). lia.
  - exact Hev.
  - exact Hus.
Qed.

Lemma list_login_events_bounded_witness :
  exists listed,
    fst (list_login_events 50 alice_and_bob) = Returned listed
    /\ Z.of_nat (List.length listed) <= 50
    /\ Permutation listed (events alice_and_bob).
Proof.
  assert (Hlimit : 0 <= 50) by lia.
  destruct (list_login_events_bounded alice_and_bob 50 Hlimit)
    as [listed [Hret [Hlen [_ [_ [Hall _]]]]]].
  exists listed. split; [exact Hret|]. split; [exact Hlen|].
  apply Hall. simpl. lia.
Defined.

(** ** What the requests can and cannot do to the users *)

Lemma serve_users_cases (db : Db) (request : Request) (route : AdminRoute) :
  after (serve request route) db = db
  \/ (exists u, current_user db request = Some u /\ d_is_admin u = true)
     /\ after (serve request route) db = after (store_operation route) db.
Proof.
  destruct (current_user db request) as [u|] eqn:Hu.
  - destruct (d_is_admin u) eqn:Hflag.
    + right. split; [now exists u|].
      now destruct (serve_admin db request route u Hu Hflag).
    + left. unfold after. now rewrite (serve_not_admin db request route u Hu).
  - left. unfold after. now rewrite (serve_anonymous db request route Hu).
Qed.

(** X13. Only an admin changes who is admin.  In a state reached from a
    fresh installation that has a user, an action that is not an
    admin-only request from an admin's session (a registration, a login,
    a request from an anonymous or ordinary session, the clock) leaves
    every existing user row exactly as it was and adds at most rows that
    are not admins. *)
Theorem only_admins_change_admins :
  forall (actions : list Action) (now : string) (a : Action),
    users (run actions (fresh_db now)) <> [] ->
    ~ acts_as_admin (run actions (fresh_db now)) a ->
    exists added,
      users (step (run actions (fresh_db now)) a)
      = users (run actions (fresh_db now)) ++ added
      /\ Forall (fun u => u_is_admin u = false) added.
Proof.
  intros actions now a Hnonempty Hnot.
  pose proof (reachable_invariant actions now) as [_ Hadmin].
  specialize (Hadmin Hnonempty).
  remember (run actions (fresh_db now)) as db eqn:Hdb. clear Hdb.
  unfold step. destruct (validated a);
    [|exists []; now rewrite app_nil_r].
  destruct a as [t | username password | username password | request route];
    cbv iota beta.
  - exists []. cbn [users]. now rewrite app_nil_r.
  - unfold after. rewrite register_result.
    destruct (get_user db username); cbn [snd].
    + exists []. now rewrite app_nil_r.
    + exists [registered db username password]. cbn [users set_users].
      split; [reflexivity|]. constructor; [|constructor].
      unfold registered. cbn [u_is_admin]. apply Nat.eqb_neq. lia.
  - exists []. rewrite login_users. now rewrite app_nil_r.
  - destruct (serve_users_cases db request route) as [->|[Hacts _]].
    + exists []. now rewrite app_nil_r.
    + exfalso. apply Hnot. exact Hacts.
Qed.

Lemma only_admins_change_admins_witness :
  exists added,
    users (step (run scenario (fresh_db "2024-01-01 09:00:00"))
                (Admin (with_session "bob") (POST_admin_role "bob" 1)))
    = users (run scenario (fresh_db "2024-01-01 09:00:00")) ++ added
    /\ Forall (fun u => u_is_admin u = false) added.
Proof.
  apply only_admins_change_admins.
  - vm_compute. discriminate.
  - assert (Hbob : current_user (run scenario (fresh_db "2024-01-01 09:00:00"))
                                (with_session "bob")
                   = Some (user_dict bob)) by (vm_compute; reflexivity).
    intros [u [Hu Hflag]]. rewrite Hbob in Hu. inversion Hu; subst u.
    discriminate Hflag.
Defined.

Lemma update_login_event_users (db : Db) (event_id : Z)
      (username logged_in_at : string) :
  users (after (update_login_event event_id username logged_in_at) db)
  = users db.
Proof.
  unfold after. rewrite update_login_event_result.
  destruct (ensure_table_events db) as [_ [Hus _]]. unfold after in Hus.
  destruct (negb _); cbn [snd]; [exact Hus|].
  destruct (parse_timestamp logged_in_at); cbn [snd];
    [reflexivity | exact Hus | exact Hus].
Qed.

Lemma store_operation_ids (db : Db) (route : AdminRoute) :
  map (fun u => (u_id u, u_created_at u))
      (users (after (store_operation route) db))
  = map (fun u => (u_id u, u_created_at u)) (users db).
Proof.
  unfold after. destruct route; cbn [store_operation].
  - reflexivity.
  - unfold list_login_events_admin, list_login_events,
      ensure_login_events_table. proc. cbn.
    destruct (login_events db); reflexivity.
  - rewrite set_admin_flag_result.
    destruct (find _ (users db)); [|reflexivity].
    destruct (_ && _ && _); [reflexivity|].
    destruct (Bool.eqb _ _); [reflexivity|].
    cbn [snd users set_users]. now apply update_where_keeps.
  - rewrite update_user_record_result.
    destruct (find _ (users db)); [|reflexivity].
    destruct (_ && _); [reflexivity|].
    destruct (existsb _ (users db)); [reflexivity|].
    cbn [snd users set_users]. now apply update_where_keeps.
  - pose proof (update_login_event_users db event_id username
                  logged_in_at) as Hus.
    unfold after in Hus. now rewrite Hus.
  - rewrite delete_login_event_result. reflexivity.
Qed.

(** X14. No request removes a user or touches an id or a creation time:
    after any action, by anyone, the users of before are all there, in
    the same order, each with its id and creation time, followed by at
    most one new row. *)
Theorem users_never_removed :
  forall (db : Db) (a : Action),
    exists added,
      map (fun u => (u_id u, u_created_at u)) (users (step db a))
      = map (fun u => (u_id u, u_created_at u)) (users db) ++ added
      /\ (List.length added <= 1)%nat.
Proof.
  intros db a.
  unfold step. destruct (validated a);
    [|exists []; rewrite app_nil_r; split; [reflexivity | simpl; lia]].
  destruct a as [t | username password | username password | request route];
    cbv iota beta.
  - exists []. cbn [users]. rewrite app_nil_r. split; [reflexivity | simpl; lia].
  - unfold after. rewrite register_result.
    destruct (get_user db username); cbn [snd].
    + exists []. rewrite app_nil_r. split; [reflexivity | simpl; lia].
    + eexists [_]. cbn [users set_users]. rewrite map_app.
      split; [reflexivity | simpl; lia].
  - exists []. rewrite login_users, app_nil_r.
    split; [reflexivity | simpl; lia].
  - exists []. rewrite app_nil_r. split; [|simpl; lia].
    destruct (serve_users_cases db request route) as [->|[_ ->]];
      [reflexivity | apply store_operation_ids].
Qed.

(** ** The role form *)

Lemma or_redirect_after (operation : M unit) (back success : string) (db : Db) :
  after (or_redirect operation back success) db = after operation db.
Proof.
  unfold after. rewrite or_redirect_cases.
  destruct (operation db) as [[[]|exc|exc] db']; reflexivity.
Qed.

(** X15. A demoted admin is locked out at once.  When an admin's request
    to [/admin/role] takes the admin flag from a user (who is not the only
    admin, and whose username is not empty), every admin-only request
    that then comes with that user's session cookie is answered 403 and
    changes nothing; the user may be the requester. *)
Theorem demoted_admin_is_locked_out :
  forall (db : Db) (request : Request) (username : string)
         (u d : UserDict) (route : AdminRoute),
    current_user db request = Some u -> d_is_admin u = true ->
    username <> "" ->
    get_user db username = Some d -> d_is_admin d = true ->
    (2 <= admin_count db)%nat ->
    serve (with_session username) route
          (after (update_admin_role request username 0) db)
    = (Raised (mkHTTPException 403 "Admins only"),
       after (update_admin_role request username 0) db).
Proof.
  intros db request username u d route Hu Hflag Hname Hd Hadmin Htwo.
  destruct (serve_post_as_admin db request u Hu Hflag) as [Hrole _].
  assert (Hafter : after (update_admin_role request username 0) db
                   = after (set_admin_flag username false) db).
  { unfold after at 1. rewrite Hrole. apply or_redirect_after. }
  rewrite Hafter.
  destruct (get_user_some_find db username d Hd) as [r [Hfind [-> Hr]]].
  cbn [user_dict d_is_admin] in Hadmin.
  apply serve_not_admin
    with (u := mkUserDict (u_id r) username (u_password_hash r) false);
    [|reflexivity].
  rewrite current_user_with_session, truthy_nonempty by exact Hname.
  unfold after. rewrite set_admin_flag_result, Hfind, Hadmin.
  cbn [negb andb Bool.eqb].
  assert (Hmany : (admin_count db <=? 1)%nat = false)
    by (apply Nat.leb_gt; lia).
  rewrite Hmany. cbn [snd].
  rewrite get_user_dict. cbn [users set_users].
  rewrite find_update_where by reflexivity. rewrite Hfind.
  cbn [option_map]. rewrite Hr, String.eqb_refl. reflexivity.
Qed.

Lemma demoted_admin_is_locked_out_witness :
  serve (with_session "alice") (GET_admin "" "")
        (after (update_admin_role (with_session "bob") "alice" 0)
               (run_ops [SetAdminFlag "bob" true] alice_and_bob))
  = (Raised (mkHTTPException 403 "Admins only"),
     after (update_admin_role (with_session "bob") "alice" 0)
           (run_ops [SetAdminFlag "bob" true] alice_and_bob)).
Proof.
  apply (demoted_admin_is_locked_out
           (run_ops [SetAdminFlag "bob" true] alice_and_bob)
           (with_session "bob") "alice"
           (mkUserDict 2 "bob" (u_password_hash bob) true)
           (user_dict alice)).
  - vm_compute. reflexivity.
  - reflexivity.
  - discriminate.
  - vm_compute. reflexivity.
  - reflexivity.
  - vm_compute. lia.
Defined.

(** X16. What an admin gets from [/admin/role].  When no user has the
    username: the redirect to [/admin] with the error "User not found.".
    When the user is the only admin and the form asks for 0: the error
    "Cannot remove the last admin.".  Otherwise: the success message,
    which names the user.  Any form value other than 0 asks for the admin
    flag. *)
Theorem update_admin_role_outcomes :
  forall (db : Db) (request : Request) (username : string) (is_admin : Z)
         (u : UserDict),
    current_user db request = Some u -> d_is_admin u = true ->
    (get_user db username = None ->
     fst (update_admin_role request username is_admin db)
     = Returned (RedirectResponse "/admin?error=User%20not%20found."
                   303 None))
    /\ (forall d, get_user db username = Some d -> d_is_admin d = true ->
        is_admin = 0 -> (admin_count db <= 1)%nat ->
        fst (update_admin_role request username is_admin db)
        = Returned (RedirectResponse
                      "/admin?error=Cannot%20remove%20the%20last%20admin."
                      303 None))
    /\ (forall d, get_user db username = Some d ->
        (d_is_admin d = true -> is_admin = 0 -> (2 <= admin_count db)%nat) ->
        fst (update_admin_role request username is_admin db)
        = Returned (RedirectResponse
                      ("/admin" ++ "?success="
                       ++ quote ("Updated admin access for " ++ username ++ "."))
                      303 None)
        /\ get_user (after (update_admin_role request username is_admin) db)
                    username
           = Some (mkUserDict (d_id d) username (d_password_hash d)
                              (negb (is_admin =? 0)))).
Proof.
  intros db request username is_admin u Hu Hflag.
  destruct (serve_post_as_admin db request u Hu Hflag) as [Hrole _].
  unfold after. rewrite Hrole, or_redirect_cases, set_admin_flag_result.
  split; [|split].
  - intro Hnone. now rewrite (get_user_none_find db username Hnone).
  - intros d Hd Hadmin -> Hone.
    destruct (get_user_some_find db username d Hd) as [r [Hfind [-> _]]].
    cbn [user_dict d_is_admin] in Hadmin. rewrite Hfind, Hadmin.
    apply Nat.leb_le in Hone. now rewrite Hone.
  - intros d Hd Hguard.
    destruct (get_user_some_find db username d Hd) as [r [Hfind [-> Hr]]].
    cbn [user_dict d_is_admin d_id d_password_hash] in *. rewrite Hfind.
    assert (Hg : u_is_admin r && negb (negb (is_admin =? 0))
                 && (admin_count db <=? 1)%nat = false).
    { destruct (u_is_admin r); [|reflexivity].
      destruct (Z.eqb_spec is_admin 0) as [Hz|Hz]; [|reflexivity].
      cbn. apply Nat.leb_gt. specialize (Hguard eq_refl Hz). lia. }
    rewrite Hg.
    destruct (Bool.eqb (u_is_admin r) (negb (is_admin =? 0))) eqn:Hsame;
      cbn [fst snd]; (split; [reflexivity|]).
    + apply Bool.eqb_prop in Hsame. rewrite <- Hsame, Hd.
      unfold user_dict. now rewrite Hr.
    + rewrite get_user_dict. cbn [users set_users].
      rewrite find_update_where by reflexivity. rewrite Hfind.
      cbn [option_map]. rewrite Hr, String.eqb_refl. reflexivity.
Qed.

Lemma update_admin_role_outcomes_witness :
  fst (update_admin_role (with_session "alice") "zoe" 1 alice_and_bob)
  = Returned (RedirectResponse "/admin?error=User%20not%20found." 303 None)
  /\ fst (update_admin_role (with_session "alice") "alice" 0 alice_and_bob)
     = Returned (RedirectResponse
                   "/admin?error=Cannot%20remove%20the%20last%20admin."
                   303 None)
  /\ get_user (after (update_admin_role (with_session "alice") "bob" 7)
                     alice_and_bob) "bob"
     = Some (mkUserDict 2 "bob" (u_password_hash bob) true).
Proof.
  split; [|split].
  - destruct (update_admin_role_outcomes alice_and_bob (with_session "alice")
                "zoe" 1 (user_dict alice) eq_refl eq_refl) as [Hnone _].
    apply Hnone. reflexivity.
  - destruct (update_admin_role_outcomes alice_and_bob (with_session "alice")
                "alice" 0 (user_dict alice) eq_refl eq_refl)
      as [_ [Hlast _]].
    apply (Hlast (user_dict alice)); [reflexivity .. | vm_compute; lia].
  - destruct (update_admin_role_outcomes alice_and_bob (with_session "alice")
                "bob" 7 (user_dict alice) eq_refl eq_refl)
      as [_ [_ Hok]].
    apply (Hok (user_dict bob)); [reflexivity|].
    simpl. discriminate.
Defined.

Lemma hex_digits_safe (c : ascii) :
  quote_safe (hex_digit true (byte_of c / 16)) = true
  /\ quote_safe (hex_digit true (byte_of c mod 16)) = true.
Proof.
  destruct c as [[] [] [] [] [] [] [] []]; vm_compute; split; reflexivity.
Qed.

Lemma quote_chars_safe (s : string) :
  Forall (fun c => quote_safe c = true \/ c = "%"%char) (chars (quote s)).
Proof.
  induction s as [|c s IH]; simpl; [constructor|].
  destruct (quote_safe c) eqn:Hsafe; simpl.
  - constructor; [now left | exact IH].
  - destruct (hex_digits_safe c) as [Hhi Hlo].
    constructor; [now right|].
    constructor; [now left|].
    constructor; [now left | exact IH].
Qed.

(** X17. Whatever the username submitted to [/admin/role], the redirect
    the handler returns sets no cookie and goes either to the login page
    or to [/admin] with one [success] or [error] parameter whose value is
    made only of letters, digits, [_.-~/] and [%]: the username cannot add
    a parameter of its own to the address. *)
Theorem role_redirect_is_encoded :
  forall (db db' : Db) (request : Request) (username : string) (is_admin : Z)
         (url : string) (status : Z) (cookie : option (string * string)),
    update_admin_role request username is_admin db
    = (Returned (RedirectResponse url status cookie), db') ->
    cookie = None /\ status = 303
    /\ (url = "/login?error=Login%20required"
        \/ exists message,
             (url = ("/admin" ++ "?success=" ++ message)%string
              \/ url = ("/admin" ++ "?error=" ++ message)%string)
             /\ Forall (fun c => quote_safe c = true \/ c = "%"%char)
                       (chars message)).
Proof.
  intros db db' request username is_admin url status cookie Hrun.
  change (update_admin_role request username is_admin)
    with (serve request (POST_admin_role username is_admin)) in Hrun.
  destruct (current_user db request) as [u|] eqn:Hu;
    [destruct (d_is_admin u) eqn:Hflag|].
  - cbn [serve] in Hrun.
    destruct (serve_post_as_admin db request u Hu Hflag) as [Hrole _].
    rewrite Hrole, or_redirect_cases in Hrun.
    destruct (set_admin_flag username (negb (is_admin =? 0)) db)
      as [[[]|exc|exc] db1]; [| |discriminate Hrun];
      injection Hrun as Hurl Hstatus Hcookie Hdb;
      (split; [now symmetry|]); (split; [now symmetry|]); right.
    + exists (quote ("Updated admin access for " ++ username ++ ".")).
      split; [left; now symmetry | apply quote_chars_safe].
    + exists (quote (detail exc)).
      split; [right; now symmetry | apply quote_chars_safe].
  - rewrite (serve_not_admin db request _ u Hu Hflag) in Hrun.
    discriminate Hrun.
  - rewrite (serve_anonymous db request _ Hu) in Hrun.
    inversion Hrun; subst. repeat split. now left.
Qed.

Lemma role_redirect_is_encoded_witness :
  exists message,
    fst (update_admin_role (with_session "alice") "b&x=1" 1 alice_and_bob)
    = Returned (RedirectResponse ("/admin" ++ "?error=" ++ message) 303 None)
    /\ Forall (fun c => quote_safe c = true \/ c = "%"%char) (chars message).
Proof.
  assert (Hrun : update_admin_role (with_session "alice") "b&x=1" 1
                                   alice_and_bob
                 = (Returned (RedirectResponse
                                "/admin?error=User%20not%20found." 303 None),
                    alice_and_bob)) by (vm_compute; reflexivity).
  destruct (role_redirect_is_encoded _ _ _ _ _ _ _ _ Hrun)
    as [_ [_ [Hlogin|[message [_ Hsafe]]]]]; [discriminate Hlogin|].
  exists "User%20not%20found.". split; [reflexivity|].
  clear Hsafe.
  destruct (role_redirect_is_encoded _ _ _ _ _ _ _ _ Hrun)
    as [_ [_ [Hlogin|[m [[Hm|Hm] Hsafe]]]]];
    [discriminate Hlogin | discriminate Hm |].
  inversion Hm; subst m. exact Hsafe.
Defined.

(** ** The shape of a password hash *)

Lemma text_length (l : list ascii) : String.length (text l) = List.length l.
Proof. induction l as [|c l IH]; simpl; [reflexivity | now rewrite IH]. Qed.

Lemma chars_text (l : list ascii) : chars (text l) = l.
Proof. apply list_ascii_of_string_of_list_ascii. Qed.

Lemma compress_length (h block : list Z) :
  List.length h = 8%nat -> List.length (Sha256.compress h block) = 8%nat.
Proof.
  intro Hh. unfold Sha256.compress.
  rewrite length_map, length_combine, Hh. reflexivity.
Qed.

Lemma digest_length (msg : list Z) : List.length (Sha256.digest msg) = 8%nat.
Proof.
  unfold Sha256.digest.
  generalize (Sha256.chunks (List.length (Sha256.pad msg)) 64 (Sha256.pad msg)).
  assert (H0 : List.length Sha256.H0 = 8%nat) by (vm_compute; reflexivity).
  revert H0. generalize Sha256.H0.
  intros h Hh blocks. revert h Hh.
  induction blocks as [|b blocks IH]; cbn [fold_left]; intros h Hh;
    [exact Hh|].
  apply IH. now apply compress_length.
Qed.

Lemma hex_digit_lower (d : Z) :
  0 <= d < 16 -> In (hex_digit false d) (chars "0123456789abcdef").
Proof.
  intro Hd.
  assert (Hcases : d = 0 \/ d = 1 \/ d = 2 \/ d = 3 \/ d = 4 \/ d = 5 \/ d = 6
                   \/ d = 7 \/ d = 8 \/ d = 9 \/ d = 10 \/ d = 11 \/ d = 12
                   \/ d = 13 \/ d = 14 \/ d = 15) by lia.
  repeat (destruct Hcases as [->|Hcases]; [vm_compute; tauto|]).
  subst d. vm_compute. tauto.
Qed.

Lemma hex_of_word_shape (w : Z) :
  List.length (Sha256.hex_of_word w) = 8%nat
  /\ Forall (fun c => In c (chars "0123456789abcdef")) (Sha256.hex_of_word w).
Proof.
  unfold Sha256.hex_of_word.
  cbv [Sha256.be_bytes app flat_map]. split; [reflexivity|].
  assert (Hhi : forall x, 0 <= x mod 256 / 16 < 16).
  { intro x. pose proof (Z.mod_pos_bound x 256 ltac:(lia)) as Hx.
    split; [apply Z.div_pos; lia|].
    apply Z.div_lt_upper_bound; lia. }
  assert (Hlo : forall x, 0 <= x mod 256 mod 16 < 16).
  { intro x. apply Z.mod_pos_bound. lia. }
  repeat (apply Forall_cons;
          [apply hex_digit_lower; first [apply Hhi | apply Hlo]|]).
  apply Forall_nil.
Qed.

Lemma flat_map_shape {A B} (f : A -> list B) (P : B -> Prop) (n : nat)
      (l : list A) :
  (forall x, List.length (f x) = n /\ Forall P (f x)) ->
  List.length (flat_map f l) = (List.length l * n)%nat
  /\ Forall P (flat_map f l).
Proof.
  intro Hf. induction l as [|x l [IHlen IHall]]; simpl; [split; constructor|].
  destruct (Hf x) as [Hlen Hall]. split.
  - rewrite length_app, Hlen, IHlen. reflexivity.
  - apply Forall_app. split; assumption.
Qed.

(** X18. Whatever the password, even the empty one, [hash_password]
    returns 64 characters, each one of [0123456789abcdef]. *)
Theorem hash_password_is_64_hex :
  forall (password : string),
    String.length (hash_password password) = 64%nat
    /\ Forall (fun c => In c (chars "0123456789abcdef"))
              (chars (hash_password password)).
Proof.
  intro password. unfold hash_password, Sha256.hexdigest.
  rewrite text_length, chars_text.
  destruct (flat_map_shape Sha256.hex_of_word
              (fun c => In c (chars "0123456789abcdef")) 8
              (Sha256.digest (bytes_of password)) hex_of_word_shape)
    as [Hlen Hall].
  split; [|exact Hall]. now rewrite Hlen, digest_length.
Qed.

(** ** Timestamps: what the editor shows is what it takes back *)

Lemma char_byte (c : ascii) : char_of (byte_of c) = c.
Proof.
  unfold char_of, byte_of. rewrite N2Z.id. apply ascii_N_embedding.
Qed.

Lemma byte_char (z : Z) : 0 <= z < 256 -> byte_of (char_of z) = z.
Proof.
  intro Hz. unfold char_of, byte_of.
  rewrite N_ascii_embedding by lia. lia.
Qed.

Lemma text_app (a b : list ascii) : text (a ++ b) = (text a ++ text b)%string.
Proof. induction a as [|c a IH]; simpl; [reflexivity | now rewrite IH]. Qed.

(** The character of the decimal digit [d]. *)
Lemma digit_char (d : Z) :
  0 <= d <= 9 ->
  is_digit (char_of (48 + d)) = true /\ byte_of (char_of (48 + d)) - 48 = d.
Proof.
  intro Hd. rewrite byte_char by lia. unfold is_digit.
  rewrite byte_char by lia. split; [|lia].
  apply andb_true_iff. split; apply Z.leb_le; lia.
Qed.

Lemma digit_is_not (c x : ascii) :
  is_digit c = true -> is_digit x = false -> Ascii.eqb c x = false.
Proof.
  intros Hc Hx. apply Ascii.eqb_neq. intros ->. congruence.
Qed.

Lemma read_digits_app (n m : nat) :
  forall acc l,
    read_digits (n + m) acc l
    = match read_digits n acc l with
      | Some (a, r) => read_digits m a r
      | None => None
      end.
Proof.
  induction n as [|n IH]; intros acc l; simpl; [reflexivity|].
  destruct l as [|c l]; [reflexivity|].
  destruct (is_digit c); [apply IH | reflexivity].
Qed.

Lemma pad_digits_all_digits (n : nat) :
  forall v, Forall (fun c => is_digit c = true) (pad_digits n v).
Proof.
  induction n as [|n IH]; intro v; simpl; [constructor|].
  apply Forall_app. split; [apply IH|].
  constructor; [|constructor].
  apply digit_char. pose proof (Z.mod_pos_bound v 10). lia.
Qed.

Lemma pad_digits_length (n : nat) : forall v, List.length (pad_digits n v) = n.
Proof.
  induction n as [|n IH]; intro v; simpl; [reflexivity|].
  rewrite length_app, IH. simpl. lia.
Qed.

(** Reading back the [n] digits [pad_digits] wrote. *)
Lemma read_pad_digits (n : nat) :
  forall v acc rest,
    0 <= v < 10 ^ Z.of_nat n ->
    read_digits n acc (pad_digits n v ++ rest)
    = Some (acc * 10 ^ Z.of_nat n + v, rest).
Proof.
  induction n as [|n IH]; intros v acc rest Hv.
  - simpl in *. do 2 f_equal. lia.
  - assert (Hpow : 10 ^ Z.of_nat (S n) = 10 * 10 ^ Z.of_nat n)
      by (rewrite Nat2Z.inj_succ, Z.pow_succ_r; lia).
    rewrite Hpow in *.
    cbn [pad_digits]. rewrite <- app_assoc. cbn [app].
    rewrite <- (Nat.add_1_r n) at 1.
    rewrite read_digits_app.
    assert (Hq : 0 <= v / 10 < 10 ^ Z.of_nat n).
    { split; [apply Z.div_pos; lia|].
      apply Z.div_lt_upper_bound; lia. }
    rewrite (IH (v / 10) acc _ Hq).
    pose proof (Z.mod_pos_bound v 10 ltac:(lia)) as Hm.
    destruct (digit_char (v mod 10) ltac:(lia)) as [Hdig Hval].
    cbn [read_digits]. rewrite Hdig, Hval.
    do 2 f_equal.
    assert (Hsplit : v = 10 * (v / 10) + v mod 10) by (apply Z.div_mod; lia).
    set (q := v / 10) in *. set (m := v mod 10) in *.
    rewrite Hsplit. ring.
Qed.

Lemma digits_needed_le (fuel : nat) :
  forall (n : nat) (v : Z),
    (1 <= n)%nat -> 0 <= v < 10 ^ Z.of_nat n ->
    (digits_needed fuel v <= n)%nat.
Proof.
  induction fuel as [|fuel IH]; intros n v Hn Hv; simpl; [exact Hn|].
  destruct (Z.ltb_spec v 10) as [Hlt|Hge]; [exact Hn|].
  destruct n as [|n]; [lia|].
  destruct n as [|n]; [simpl in Hv; lia|].
  apply le_n_S. apply IH; [lia|].
  rewrite (Nat2Z.inj_succ (S n)), Z.pow_succ_r in Hv by lia.
  split; [apply Z.div_pos; lia|].
  apply Z.div_lt_upper_bound; lia.
Qed.

Lemma zero_padded_fits (n : nat) (v : Z) :
  (1 <= n)%nat -> 0 <= v < 10 ^ Z.of_nat n ->
  zero_padded n v = text (pad_digits n v).
Proof.
  intros Hn Hv. unfold zero_padded.
  now rewrite (Nat.max_l n _ (digits_needed_le _ n v Hn Hv)).
Qed.

Lemma whitespace_ends :
  forallb (fun p => match p with
                    | x :: _ => (x <? 48) || (57 <? x)
                    | [] => false
                    end) whitespace = true
  /\ forallb (fun p => match rev p with
                       | x :: _ => (x <? 48) || (57 <? x)
                       | [] => false
                       end) whitespace = true.
Proof. vm_compute. split; reflexivity. Qed.

Lemma find_all_false {A} (f : A -> bool) (l : list A) :
  (forall x, In x l -> f x = false) -> find f l = None.
Proof.
  induction l as [|x l IH]; simpl; intro H; [reflexivity|].
  rewrite (H x) by auto. apply IH. intros; apply H; auto.
Qed.

(** No white-space character begins or ends with the byte of a digit. *)
Lemma digit_no_space (b : Z) (l : list Z) :
  48 <= b <= 57 ->
  space_width (b :: l) = None /\ space_width_rev (b :: l) = None.
Proof.
  intro Hb. destruct whitespace_ends as [Hheads Hlasts].
  unfold space_width, space_width_rev. split.
  - rewrite find_all_false; [reflexivity|]. intros p Hp.
    apply (proj1 (forallb_forall _ _) Hheads) in Hp.
    destruct p as [|x p]; [discriminate|]. cbn [starts_with].
    apply orb_true_iff in Hp. rewrite Z.ltb_lt, Z.ltb_lt in Hp.
    replace (x =? b) with false by (symmetry; apply Z.eqb_neq; lia).
    reflexivity.
  - rewrite find_all_false; [reflexivity|]. intros p Hp.
    apply (proj1 (forallb_forall _ _) Hlasts) in Hp.
    destruct (rev p) as [|x q]; [discriminate|]. cbn [starts_with].
    apply orb_true_iff in Hp. rewrite Z.ltb_lt, Z.ltb_lt in Hp.
    replace (x =? b) with false by (symmetry; apply Z.eqb_neq; lia).
    reflexivity.
Qed.

Lemma is_digit_byte (c : ascii) : is_digit c = true -> 48 <= byte_of c <= 57.
Proof.
  unfold is_digit. intro H. apply andb_true_iff in H.
  rewrite !Z.leb_le in H. exact H.
Qed.

Lemma lstrip_nothing (fuel : nat) (l : list Z) :
  space_width l = None -> lstrip_bytes fuel l = l.
Proof. intro H. destruct fuel; simpl; [reflexivity | now rewrite H]. Qed.

Lemma rstrip_nothing (fuel : nat) (l : list Z) :
  space_width_rev l = None -> rstrip_rev fuel l = l.
Proof. intro H. destruct fuel; simpl; [reflexivity | now rewrite H]. Qed.

(** [strip] returns unchanged a text that begins and ends outside white
    space. *)
Lemma strip_plain (l : list ascii) :
  space_width (map byte_of l) = None ->
  space_width_rev (rev (map byte_of l)) = None ->
  strip (text l) = text l.
Proof.
  intros Hfront Hback. unfold strip, bytes_of. rewrite chars_text.
  rewrite (lstrip_nothing (String.length (text l)) (map byte_of l) Hfront).
  rewrite (rstrip_nothing (List.length (map byte_of l)) (rev (map byte_of l))
             Hback).
  rewrite rev_involutive, map_map.
  rewrite (map_ext _ (fun c => c) char_byte), map_id. reflexivity.
Qed.

Lemma replace_char_text (old new : ascii) (l : list ascii) :
  replace_char old new (text l)
  = text (map (fun c => if Ascii.eqb c old then new else c) l).
Proof. induction l as [|c l IH]; simpl; [reflexivity | now rewrite IH]. Qed.

Lemma map_on_digits (f : ascii -> ascii) (l : list ascii) :
  (forall c, is_digit c = true -> f c = c) ->
  Forall (fun c => is_digit c = true) l -> map f l = l.
Proof.
  intros Hf. induction 1 as [|c l Hc _ IH]; simpl; [reflexivity|].
  now rewrite Hf, IH.
Qed.

(** A character map that keeps digits, [-] and [:] acts on the separator
    only. *)
Lemma map_stamp (f : ascii -> ascii) (sep : ascii) (d : datetime) :
  (forall c, is_digit c = true -> f c = c) ->
  f "-"%char = "-"%char -> f ":"%char = ":"%char ->
  map f (stamp sep d) = stamp (f sep) d.
Proof.
  intros Hdigits Hdash Hcolon. unfold stamp.
  repeat (rewrite map_app; cbn [map]).
  rewrite !(map_on_digits f _ Hdigits) by apply pad_digits_all_digits.
  now rewrite Hdash, Hcolon.
Qed.

Lemma stamp_plain (sep : ascii) (d : datetime) :
  strip (text (stamp sep d)) = text (stamp sep d).
Proof.
  assert (Hdigit : forall v, 48 <= byte_of (char_of (48 + v mod 10)) <= 57).
  { intro v. pose proof (Z.mod_pos_bound v 10 ltac:(lia)).
    rewrite byte_char; lia. }
  apply strip_plain; cbn [stamp pad_digits app map rev].
  - exact (proj1 (digit_no_space _ _ (Hdigit _))).
  - exact (proj2 (digit_no_space _ _ (Hdigit _))).
Qed.

Lemma stamp_length (sep : ascii) (d : datetime) :
  List.length (stamp sep d) = 19%nat.
Proof. reflexivity. Qed.

(** The ranges [valid_datetime] checks. *)
Lemma valid_datetime_bounds (d : datetime) :
  valid_datetime d = true ->
  1 <= year d <= 9999 /\ 1 <= month d <= 12 /\ 1 <= day d <= 31
  /\ 0 <= hour d <= 23 /\ 0 <= minute d <= 59 /\ 0 <= second d <= 59.
Proof.
  unfold valid_datetime. intro H.
  repeat (apply andb_true_iff in H; destruct H as [H ?]).
  repeat match goal with
         | Hle : (_ <=? _) = true |- _ => apply Z.leb_le in Hle
         end.
  assert (days_in_month (year d) (month d) <= 31).
  { unfold days_in_month.
    destruct (month d =? 2); [destruct (is_leap (year d)); lia|].
    destruct (_ || _); lia. }
  lia.
Qed.

Lemma valid_without_microsecond (d : datetime) :
  valid_datetime d = true ->
  valid_datetime (mkDatetime (year d) (month d) (day d) (hour d) (minute d)
                             (second d) 0) = true.
Proof.
  unfold valid_datetime. cbn [year month day hour minute second microsecond].
  intro H. repeat (apply andb_true_iff in H; destruct H as [H ?]).
  repeat (apply andb_true_iff; split); auto.
Qed.

Lemma text_cons (c : ascii) (l : list ascii) : text (c :: l) = String c (text l).
Proof. reflexivity. Qed.

Lemma strftime_stamp (d : datetime) :
  valid_datetime d = true ->
  strftime d = text (stamp " " d) /\ strftime_T d = text (stamp "T" d).
Proof.
  intro Hvalid. apply valid_datetime_bounds in Hvalid.
  unfold strftime, strftime_T, stamp.
  rewrite (zero_padded_fits 4 (year d)) by (simpl; lia).
  rewrite !(zero_padded_fits 2) by (simpl; lia).
  repeat (rewrite text_app || rewrite text_cons).
  split; reflexivity.
Qed.

Lemma read_pad_digits0 (n : nat) (v : Z) (rest : list ascii) :
  0 <= v < 10 ^ Z.of_nat n ->
  read_digits n 0 (pad_digits n v ++ rest) = Some (v, rest).
Proof. intro Hv. now rewrite read_pad_digits. Qed.

Lemma split_offset_plain (l : list ascii) :
  Forall (fun c => Ascii.eqb c "+" || Ascii.eqb c "-" = false) l ->
  split_offset l = (l, None).
Proof.
  induction 1 as [|c l Hc _ IH]; cbn [split_offset]; [reflexivity|].
  now rewrite Hc, IH.
Qed.

Lemma time_no_sign (h mi s : Z) :
  Forall (fun c => Ascii.eqb c "+" || Ascii.eqb c "-" = false)
         (pad_digits 2 h ++ ":"%char :: pad_digits 2 mi
          ++ ":"%char :: pad_digits 2 s).
Proof.
  assert (Hdigits : forall v,
             Forall (fun c => Ascii.eqb c "+" || Ascii.eqb c "-" = false)
                    (pad_digits 2 v)).
  { intro v. eapply Forall_impl; [|apply pad_digits_all_digits].
    intros c Hc. cbv beta.
    rewrite (digit_is_not c "+" Hc eq_refl), (digit_is_not c "-" Hc eq_refl).
    reflexivity. }
  apply Forall_app. split; [apply Hdigits|].
  apply Forall_cons; [reflexivity|].
  apply Forall_app. split; [apply Hdigits|].
  apply Forall_cons; [reflexivity | apply Hdigits].
Qed.

Lemma parse_time_digits (h mi s : Z) :
  0 <= h < 100 -> 0 <= mi < 100 -> 0 <= s < 100 ->
  parse_hh_mm_ss_ff (pad_digits 2 h ++ ":"%char :: pad_digits 2 mi
                     ++ ":"%char :: pad_digits 2 s)
  = Some (h, mi, s, 0).
Proof.
  intros Hh Hmi Hs. unfold parse_hh_mm_ss_ff.
  rewrite (read_pad_digits0 2 h) by exact Hh. cbv beta iota.
  rewrite Ascii.eqb_refl. cbn [negb]. cbv beta iota.
  rewrite (read_pad_digits0 2 mi) by exact Hmi. cbv beta iota.
  rewrite Ascii.eqb_refl. cbn [negb]. cbv beta iota.
  rewrite <- (app_nil_r (pad_digits 2 s)).
  rewrite (read_pad_digits0 2 s) by exact Hs. reflexivity.
Qed.

Lemma drop_char_space (l : list ascii) : drop_char (" "%char :: l) = l.
Proof. reflexivity. Qed.

(** The parser reads a well-formed timestamp back, to the second. *)
Lemma fromisoformat_stamp (d : datetime) :
  valid_datetime d = true ->
  fromisoformat (text (stamp " " d))
  = Some (mkDatetime (year d) (month d) (day d) (hour d) (minute d)
                     (second d) 0).
Proof.
  intro Hvalid.
  pose proof (valid_datetime_bounds d Hvalid) as Hb.
  pose proof (valid_without_microsecond d Hvalid) as Hv0.
  unfold fromisoformat, stamp. rewrite chars_text.
  rewrite (read_pad_digits0 4 (year d)) by (change (10 ^ Z.of_nat 4) with 10000; lia).
  cbv beta iota. rewrite Ascii.eqb_refl. cbn [negb]. cbv beta iota.
  rewrite (read_pad_digits0 2 (month d)) by (change (10 ^ Z.of_nat 2) with 100; lia).
  cbv beta iota. rewrite Ascii.eqb_refl. cbn [negb]. cbv beta iota.
  rewrite (read_pad_digits0 2 (day d)) by (change (10 ^ Z.of_nat 2) with 100; lia).
  cbv beta iota zeta. rewrite drop_char_space.
  unfold parse_isoformat_time.
  rewrite split_offset_plain by apply time_no_sign.
  cbv beta iota.
  rewrite parse_time_digits by lia.
  cbv beta iota. now rewrite Hv0.
Qed.

Lemma strftime_without_microsecond (d : datetime) :
  strftime (mkDatetime (year d) (month d) (day d) (hour d) (minute d)
                       (second d) 0)
  = strftime d.
Proof. reflexivity. Qed.

Lemma parse_timestamp_stamp (sep : ascii) (d : datetime) :
  valid_datetime d = true -> sep = " "%char \/ sep = "T"%char ->
  parse_timestamp (text (stamp sep d)) = Returned (strftime d).
Proof.
  intros Hvalid Hsep. unfold parse_timestamp.
  rewrite stamp_plain, replace_char_text.
  rewrite (map_stamp _ sep d);
    [| intros c Hc; now rewrite (digit_is_not c "T" Hc eq_refl)
     | reflexivity | reflexivity].
  replace (if Ascii.eqb sep "T" then " "%char else sep) with " "%char
    by (destruct Hsep; subst sep; reflexivity).
  rewrite (fromisoformat_stamp d Hvalid).
  now rewrite strftime_without_microsecond.
Qed.

Lemma fromisoformat_valid (s : string) (d : datetime) :
  fromisoformat s = Some d -> valid_datetime d = true.
Proof.
  unfold fromisoformat. intro H. cbv zeta in H.
  repeat match type of H with
         | context [match ?x with _ => _ end] =>
             destruct x eqn:?; try discriminate H
         end.
  all: inversion H; subst; assumption.
Qed.

(** X19. The table editor shows a stored timestamp through [format_ts]
    and takes the field back through [parse_timestamp]: for a valid date
    and time with a four-digit year (what [strftime] pads on every
    platform), parsing what [format_ts] shows returns normally the
    timestamp in its stored form, to the second.  [format_ts] gives the
    same text for the time value and for its stored text. *)
Theorem editor_timestamp_round_trip :
  forall (d : datetime),
    valid_datetime d = true -> 1000 <= year d ->
    parse_timestamp (format_ts (inl d)) = Returned (strftime d)
    /\ format_ts (inr (strftime d)) = format_ts (inl d).
Proof.
  intros d Hvalid _. destruct (strftime_stamp d Hvalid) as [Hspace HT].
  cbn [format_ts]. split.
  - rewrite HT. apply parse_timestamp_stamp; [exact Hvalid | now right].
  - rewrite HT, Hspace, replace_char_text.
    rewrite (map_stamp _ " " d);
      [reflexivity
      | intros c Hc; now rewrite (digit_is_not c " " Hc eq_refl)
      | reflexivity | reflexivity].
Qed.

Lemma editor_timestamp_round_trip_witness :
  parse_timestamp (format_ts (inl (mkDatetime 2024 2 29 23 59 7 0)))
  = Returned "2024-02-29 23:59:07".
Proof.
  assert (Hyear : 1000 <= year (mkDatetime 2024 2 29 23 59 7 0))
    by (simpl; lia).
  destruct (editor_timestamp_round_trip (mkDatetime 2024 2 29 23 59 7 0)
              eq_refl Hyear) as [Hparse _].
  rewrite Hparse. vm_compute. reflexivity.
Defined.

(** X20. What [parse_timestamp] returns is a normal form.  When it
    returns a text of 19 characters (four digits of year, which
    [strftime] prints on every platform), the text is a valid date and
    time as [strftime] prints it, and parsing it again, with a space or
    with a [T] between date and time, returns the same text. *)
Theorem parse_timestamp_normal_form :
  forall (value ts : string),
    parse_timestamp value = Returned ts ->
    String.length ts = 19%nat ->
    (exists d, valid_datetime d = true /\ ts = strftime d)
    /\ parse_timestamp ts = Returned ts
    /\ parse_timestamp (replace_char " " "T" ts) = Returned ts.
Proof.
  intros value ts Hparse _. unfold parse_timestamp in Hparse.
  destruct (fromisoformat _) as [d|] eqn:Hd; [|discriminate Hparse].
  inversion Hparse; subst ts. clear Hparse.
  apply fromisoformat_valid in Hd.
  split; [now exists d|].
  destruct (strftime_stamp d Hd) as [Hspace _].
  rewrite Hspace. split.
  - rewrite <- Hspace at 2. apply parse_timestamp_stamp; [exact Hd | now left].
  - rewrite <- Hspace at 2. rewrite replace_char_text.
    rewrite (map_stamp _ " " d);
      [| intros c Hc; now rewrite (digit_is_not c " " Hc eq_refl)
       | reflexivity | reflexivity].
    apply parse_timestamp_stamp; [exact Hd | now right].
Qed.

Lemma parse_timestamp_normal_form_witness :
  parse_timestamp "2024-01-05 10:30:00" = Returned "2024-01-05 10:30:00"
  /\ parse_timestamp (replace_char " " "T" "2024-01-05 10:30:00")
     = Returned "2024-01-05 10:30:00".
Proof.
  assert (Hparse : parse_timestamp " 2024-01-05T10:30 "
                   = Returned "2024-01-05 10:30:00")
    by (vm_compute; reflexivity).
  destruct (parse_timestamp_normal_form _ _ Hparse eq_refl)
    as [_ [Hagain HT]].
  split; [exact Hagain | exact HT].
Defined.

(** ** What every run keeps *)

Lemma user_ops_keep_events (db : Db) :
  (forall username is_admin,
     login_events (after (set_admin_flag username is_admin) db)
     = login_events db)
  /\ (forall user_id username is_admin new_password,
        login_events (after (update_user_record user_id username is_admin
                                                new_password) db)
        = login_events db).
Proof.
  unfold after. split; intros.
  - rewrite set_admin_flag_result.
    destruct (find _ (users db)); [|reflexivity].
    destruct (_ && _ && _); [reflexivity|].
    destruct (Bool.eqb _ _); reflexivity.
  - rewrite update_user_record_result.
    destruct (find _ (users db)); [|reflexivity].
    destruct (_ && _); [reflexivity|].
    destruct (existsb _ (users db)); reflexivity.
Qed.

Lemma events_of_table (db db' : Db) :
  login_events db' = login_events db -> events db' = events db.
Proof. unfold events. now intros ->. Qed.

Lemma delete_keeps_unique_ids (cond : LoginEvent -> bool)
      (es : list LoginEvent) :
  NoDup (map e_id es) -> NoDup (map e_id (delete_where cond es)).
Proof.
  unfold delete_where. intro Hunique.
  induction es as [|e es IH]; simpl; [constructor|].
  inversion Hunique as [|i ids Hfresh Hrest]; subst.
  destruct (cond e); simpl; [now apply IH|].
  constructor; [|now apply IH].
  intro Hin. apply Hfresh. apply in_map_iff in Hin.
  destruct Hin as [x [Hx Hin]]. apply filter_In in Hin.
  rewrite <- Hx. apply in_map. tauto.
Qed.

Lemma store_operation_event_ids (db : Db) (route : AdminRoute) :
  NoDup (map e_id (events db)) ->
  NoDup (map e_id (events (after (store_operation route) db))).
Proof.
  intro Hnd. destruct (user_ops_keep_events db) as [Hflag Hrecord].
  destruct route; cbn [store_operation].
  - exact Hnd.
  - assert (E : events (after (query list_users_with_ids ;;
                               list_login_events_admin 200 ;; ret tt) db)
                = events db).
    { unfold after at 1, list_login_events_admin.
      cbv beta iota delta [bind query ret].
      rewrite list_login_events_result. cbn [snd].
      exact (proj1 (ensure_table_events db)). }
    now rewrite E.
  - now rewrite (events_of_table _ _ (Hflag _ _)).
  - now rewrite (events_of_table _ _ (Hrecord _ _ _ _)).
  - unfold after. rewrite update_login_event_result.
    destruct (ensure_table_events db) as [Hev _].
    destruct (negb _); cbn [snd]; [now rewrite Hev|].
    destruct (parse_timestamp logged_in_at); cbn [snd];
      [|now rewrite Hev|now rewrite Hev].
    unfold events at 1. cbn [login_events set_login_events].
    now rewrite update_where_keeps.
  - unfold after. rewrite delete_login_event_result. cbn [snd].
    unfold events at 1. cbn [login_events set_login_events].
    now apply delete_keeps_unique_ids.
Qed.

Lemma step_event_ids (db : Db) (a : Action) :
  NoDup (map e_id (events db)) -> NoDup (map e_id (events (step db a))).
Proof.
  intro Hnd. unfold step. destruct (validated a); [|exact Hnd].
  destruct a as [t | username password | username password | request route];
    cbv iota beta.
  - exact Hnd.
  - unfold after. rewrite register_result.
    destruct (get_user db username); exact Hnd.
  - unfold after.
    destruct (get_user db username) as [d|] eqn:Hd.
    + destruct (String.eqb_spec (d_password_hash d) (hash_password password))
        as [Hhash|Hhash].
      * rewrite (login_accepted db username password d Hd Hhash). cbn [snd].
        destruct (record_login_event_events db username) as [-> _].
        rewrite map_app. cbn [map e_id].
        apply NoDup_snoc; [exact Hnd | apply next_id_fresh].
      * rewrite login_rejected by (rewrite Hd; exact Hhash). exact Hnd.
    + rewrite login_rejected by now rewrite Hd. exact Hnd.
  - destruct (serve_users_cases db request route) as [->|[_ ->]];
      [exact Hnd | now apply store_operation_event_ids].
Qed.

(** X21. What every run keeps.  In every state the panel reaches from a
    fresh installation, through any registrations, logins and admin
    requests from any sessions: user ids are unique, usernames are unique,
    login event ids are unique, and as soon as there is a user there is
    an admin. *)
Theorem every_run_keeps_the_invariants :
  forall (actions : list Action) (now : string),
    NoDup (map u_id (users (run actions (fresh_db now))))
    /\ NoDup (map u_username (users (run actions (fresh_db now))))
    /\ NoDup (map e_id (events (run actions (fresh_db now))))
    /\ (users (run actions (fresh_db now)) <> [] ->
        (1 <= admin_count (run actions (fresh_db now)))%nat).
Proof.
  intros actions now.
  assert (Hrun : forall db, NoDup (map e_id (events db)) ->
                            NoDup (map e_id (events (run actions db)))).
  { unfold run. induction actions as [|a actions IH]; simpl; intros db Hnd;
      [exact Hnd|]. apply IH, step_event_ids, Hnd. }
  destruct (reachable_invariant actions now) as [[Hids Hnames] Hadmin].
  split; [exact Hids|]. split; [exact Hnames|]. split; [|exact Hadmin].
  apply Hrun. constructor.
Qed.

(** X22. The two pages of the admin area only read.  Whoever asks,
    [GET /admin] leaves the database exactly as it was, and
    [GET /admin/editor] leaves the users and the login events as they
    were: all it can do is create the still missing [login_events] table,
    and once the table exists it changes nothing either. *)
Theorem admin_pages_only_read :
  forall (db : Db) (request : Request) (error success : string),
    after (admin_panel request error success) db = db
    /\ users (after (table_editor request error success) db) = users db
    /\ events (after (table_editor request error success) db) = events db
    /\ (login_events db <> None ->
        after (table_editor request error success) db = db).
Proof.
  intros db request error success.
  change (admin_panel request error success)
    with (serve request (GET_admin error success)).
  change (table_editor request error success)
    with (serve request (GET_admin_editor error success)).
  assert (Hread : after (store_operation (GET_admin error success)) db = db)
    by reflexivity.
  assert (Hedit : after (store_operation (GET_admin_editor error success)) db
                  = after ensure_login_events_table db).
  { unfold after at 1. cbn [store_operation].
    unfold list_login_events_admin.
    cbv beta iota delta [bind query ret].
    rewrite list_login_events_result. reflexivity. }
  assert (Htable : login_events db <> None ->
                   after ensure_login_events_table db = db).
  { unfold after, ensure_login_events_table, execute. cbn [snd].
    destruct (login_events db); [reflexivity | congruence]. }
  destruct (ensure_table_events db) as [Hev [Hus _]].
  split.
  - destruct (serve_users_cases db request (GET_admin error success))
      as [->|[_ ->]]; [reflexivity | exact Hread].
  - destruct (serve_users_cases db request (GET_admin_editor error success))
      as [->|[_ ->]]; [repeat split|].
    rewrite Hedit. split; [exact Hus|]. split; [exact Hev | exact Htable].
Qed.

Lemma admin_pages_only_read_witness :
  after (table_editor (with_session "alice") "" "") alice_and_bob
  = alice_and_bob.
Proof.
  apply (admin_pages_only_read alice_and_bob (with_session "alice") "" "").
  simpl. discriminate.
Defined.

Lemma every_run_keeps_the_invariants_witness :
  (1 <= admin_count (run scenario (fresh_db "2024-01-01 09:00:00")))%nat.
Proof.
  destruct (every_run_keeps_the_invariants scenario "2024-01-01 09:00:00")
    as [_ [_ [_ Hadmin]]].
  apply Hadmin. vm_compute. discriminate.
Defined.
